(** * Clean-load stage of the flight ETL pipeline: a shallow embedding

    The development follows [src/clean/clean_load.py] (key builder, alias
    resolution, coercions, batch loader) and [src/models/clean_flight.py]
    (the CleanFlight field validators).

    Python values are modelled by the inductive [pyval]; text is ASCII
    ([string], one [ascii] per code point below 128; the text functions leave
    bytes above 127 alone); Python's unbounded [int] is [Z]; Python's [float]
    is IEEE binary64, given by the standard library's [spec_float] at
    precision 53 and maximal exponent 1024. Exceptions are explicit: a
    function that can raise returns a [result]. *)

From Stdlib Require Import ZArith Lia List Bool Ascii String SpecFloat.
From stdpp Require Import base option gmap strings.
Import ListNotations.

Local Open Scope string_scope.
Local Open Scope Z_scope.

(* ===================================================================== *)
(** ** Exceptions and results *)
(* ===================================================================== *)

Inductive exn : Type :=
  | ValueError (msg : string)
  | TypeError
  | OverflowError.

Inductive result (A : Type) : Type :=
  | Ok (a : A)
  | Raise (e : exn).
Arguments Ok {A} a.
Arguments Raise {A} e.

Definition rbind {A B : Type} (r : result A) (k : A -> result B) : result B :=
  match r with
  | Ok a => k a
  | Raise e => Raise e
  end.

Notation "'do' x <- r ; k" := (rbind r (fun x => k))
  (at level 10, x name, r at level 100, k at level 200).

(** [try: ... except Exception: return None] around a computation. *)
Definition try_or_none {A : Type} (r : result A) : option A :=
  match r with
  | Ok a => Some a
  | Raise _ => None
  end.

(* ===================================================================== *)
(** ** Python text: [str.strip], [str.upper], [str.lower], decimal output *)
(* ===================================================================== *)

Module PyText.

Definition code (c : ascii) : Z := Z.of_nat (nat_of_ascii c).

Definition chr (n : Z) : ascii := ascii_of_nat (Z.to_nat n).

(** [str.isspace] on one ASCII character: TAB, LF, VT, FF, CR, the four
    separators FS, GS, RS, US, and the space. *)
Definition is_space (c : ascii) : bool :=
  let n := code c in
  ((9 <=? n) && (n <=? 13)) || ((28 <=? n) && (n <=? 32)).

(** The C locale's [isspace], which [float()] uses to trim its argument:
    TAB, LF, VT, FF, CR and the space. *)
Definition is_c_space (c : ascii) : bool :=
  let n := code c in
  ((9 <=? n) && (n <=? 13)) || (n =? 32).

Definition is_lower (c : ascii) : bool :=
  let n := code c in (97 <=? n) && (n <=? 122).

Definition is_upper (c : ascii) : bool :=
  let n := code c in (65 <=? n) && (n <=? 90).

Definition is_digit (c : ascii) : bool :=
  let n := code c in (48 <=? n) && (n <=? 57).

Definition upper_char (c : ascii) : ascii :=
  if is_lower c then chr (code c - 32) else c.

Definition lower_char (c : ascii) : ascii :=
  if is_upper c then chr (code c + 32) else c.

Fixpoint upper (s : string) : string :=
  match s with
  | EmptyString => EmptyString
  | String c s' => String (upper_char c) (upper s')
  end.

Fixpoint lower (s : string) : string :=
  match s with
  | EmptyString => EmptyString
  | String c s' => String (lower_char c) (lower s')
  end.

Definition is_empty (s : string) : bool :=
  match s with
  | EmptyString => true
  | String _ _ => false
  end.

Section Strip.
Variable sp : ascii -> bool.

Fixpoint lstrip_by (s : string) : string :=
  match s with
  | EmptyString => EmptyString
  | String c s' => if sp c then lstrip_by s' else s
  end.

(** Trailing characters go when everything after them is gone too. *)
Fixpoint rstrip_by (s : string) : string :=
  match s with
  | EmptyString => EmptyString
  | String c s' =>
      let r := rstrip_by s' in
      if sp c && is_empty r then EmptyString else String c r
  end.

Definition strip_by (s : string) : string := rstrip_by (lstrip_by s).
End Strip.

(** [s.strip()] *)
Definition strip : string -> string := strip_by is_space.

Definition digit_char (d : Z) : ascii := chr (48 + d).

Definition digit_val (c : ascii) : Z := code c - 48.

Fixpoint dec_go (fuel : nat) (n : Z) (acc : string) : string :=
  match fuel with
  | O => acc
  | S fuel' =>
      let acc' := String (digit_char (n mod 10)) acc in
      if n <? 10 then acc' else dec_go fuel' (n / 10) acc'
  end.

(** Decimal digits of a natural number, most significant first. *)
Definition dec_nat (n : Z) : string :=
  dec_go (S (Z.to_nat (Z.log2 n))) n EmptyString.

(** [str(n)] for an [int]. *)
Definition str_int (n : Z) : string :=
  if n <? 0 then String "-" (dec_nat (- n)) else dec_nat n.

Fixpoint zeros (k : nat) : string :=
  match k with
  | O => EmptyString
  | S k' => String "0" (zeros k')
  end.

(** [format(n, "0Wd")]: the sign first, then zeros up to the width [w],
    then the digits; a number that is already wide enough is not cut. *)
Definition format_0d (w : nat) (n : Z) : string :=
  if n <? 0
  then let d := dec_nat (- n) in
       String "-" (zeros (w - 1 - String.length d) +:+ d)
  else let d := dec_nat n in
       zeros (w - String.length d) +:+ d.

(** Reading back a run of digits. *)
Fixpoint digits_val (acc : Z) (s : string) : Z :=
  match s with
  | EmptyString => acc
  | String c s' => digits_val (10 * acc + digit_val c) s'
  end.

(** Does [c] occur in [s]? *)
Fixpoint mem_char (c : ascii) (s : string) : bool :=
  match s with
  | EmptyString => false
  | String c' s' => Ascii.eqb c c' || mem_char c s'
  end.

(** *** Shapes of text, for stating what the functions above achieve *)

(** The four digits [TTTT] of a time [t] below 10000. *)
Definition four_digits (t : Z) : string :=
  String (digit_char (t / 1000)) (String (digit_char (t / 100 mod 10))
    (String (digit_char (t / 10 mod 10)) (String (digit_char (t mod 10)) ""))).

Fixpoint all_digits (s : string) : bool :=
  match s with
  | EmptyString => true
  | String c s' => is_digit c && all_digits s'
  end.

(** [n] consecutive integers from [start]. *)
Fixpoint zrange (start : Z) (n : nat) : list Z :=
  match n with
  | O => []
  | S n' => start :: zrange (start + 1) n'
  end.

Fixpoint all_space (s : string) : bool :=
  match s with
  | EmptyString => true
  | String c s' => is_space c && all_space s'
  end.

Definition head_space (s : string) : bool :=
  match s with
  | EmptyString => false
  | String c _ => is_space c
  end.

Fixpoint last_space (s : string) : bool :=
  match s with
  | EmptyString => false
  | String c EmptyString => is_space c
  | String _ s' => last_space s'
  end.

Fixpoint has_lower (s : string) : bool :=
  match s with
  | EmptyString => false
  | String c s' => is_lower c || has_lower s'
  end.

(** The same character, or the same letter in the other case. *)
Definition same_letter (c c' : ascii) : bool :=
  Ascii.eqb c c'
  || (is_lower c && Ascii.eqb c' (upper_char c))
  || (is_lower c' && Ascii.eqb c (upper_char c')).

(** Two texts that differ by letter case only. *)
Fixpoint case_variant (s t : string) : bool :=
  match s, t with
  | EmptyString, EmptyString => true
  | String c s', String c' t' => same_letter c c' && case_variant s' t'
  | _, _ => false
  end.

(** [x] is [core] with white space added in front and behind. *)
Definition padded (core x : string) : Prop :=
  exists l r, all_space l = true /\ all_space r = true /\ x = l +:+ core +:+ r.

(** Two texts that differ by letter case and surrounding white space only. *)
Definition code_variant (x y : string) : Prop :=
  exists cx cy, padded cx x /\ padded cy y /\ case_variant cx cy = true.

(** A code in normal form: not empty, no lower-case letter, no white space
    at either end. *)
Definition normal_code (s : string) : bool :=
  negb (is_empty s) && negb (has_lower s)
  && negb (head_space s) && negb (last_space s).

End PyText.

(* ===================================================================== *)
(** ** Python floats: binary64 *)
(* ===================================================================== *)

Module PyFloat.
Import PyText.

Definition prec : Z := 53.
Definition emax : Z := 1024.

Definition is_nan (f : spec_float) : bool :=
  match f with
  | S754_nan => true
  | _ => false
  end.

(** [float(n)] for an [int]: the nearest double, ties to even;
    "int too large to convert to float" beyond the range. *)
Definition of_int (n : Z) : result spec_float :=
  match binary_normalize prec emax n 0 false with
  | S754_infinity _ => Raise OverflowError
  | f => Ok f
  end.

(** [int(x)] for a [float]: truncation toward zero. *)
Definition to_int (f : spec_float) : result Z :=
  match f with
  | S754_nan => Raise (ValueError "cannot convert float NaN to integer")
  | S754_infinity _ => Raise OverflowError
  | S754_zero _ => Ok 0
  | S754_finite s m e =>
      let v := if 0 <=? e then Zpos m * 2 ^ e else Zpos m / 2 ^ (- e) in
      Ok (if s then - v else v)
  end.

(** The double nearest to [(-1)^sign * m * 10^e10], ties to even;
    an infinity on overflow, a signed zero on underflow. *)
Definition of_decimal (sign : bool) (m : Z) (e10 : Z) : spec_float :=
  match m with
  | Zpos _ =>
      if 0 <=? e10
      then match m * 10 ^ e10 with
           | Zpos p => binary_round prec emax sign p 0
           | _ => S754_zero sign
           end
      else let '(q, e', l) := SFdiv_core_binary prec emax m 0 (10 ^ (- e10)) 0 in
           binary_round_aux prec emax sign q e' l
  | _ => S754_zero sign
  end.

(** *** Reading a float: the grammar of [float(str)] *)

(** Underscores may only sit between two digits; they are dropped. *)
Fixpoint drop_underscores (prev : ascii) (s : string) : option string :=
  match s with
  | EmptyString => if Ascii.eqb prev "_" then None else Some EmptyString
  | String c s' =>
      if Ascii.eqb c "_"
      then if is_digit prev then drop_underscores c s' else None
      else if Ascii.eqb prev "_" && negb (is_digit c) then None
           else String c <$> drop_underscores c s'
  end.

Fixpoint take_digits (s : string) : string * string :=
  match s with
  | EmptyString => (EmptyString, EmptyString)
  | String c s' =>
      if is_digit c
      then let '(d, r) := take_digits s' in (String c d, r)
      else (EmptyString, s)
  end.

Definition take_sign (s : string) : bool * string :=
  match s with
  | String "-" s' => (true, s')
  | String "+" s' => (false, s')
  | _ => (false, s)
  end.

(** [kw] (lower case) is a prefix of [s] up to letter case: the rest. *)
Fixpoint match_ci (kw s : string) : option string :=
  match kw with
  | EmptyString => Some s
  | String k kw' =>
      match s with
      | String c s' => if Ascii.eqb (lower_char c) k then match_ci kw' s' else None
      | EmptyString => None
      end
  end.

(** [inf], [infinity] or [nan] after the sign; nothing may follow. *)
Definition parse_inf_nan (sign : bool) (s : string) : option spec_float :=
  match match_ci "inf" s with
  | Some r =>
      let r' := match match_ci "inity" r with Some r2 => r2 | None => r end in
      if is_empty r' then Some (S754_infinity sign) else None
  | None =>
      match match_ci "nan" s with
      | Some r => if is_empty r then Some S754_nan else None
      | None => None
      end
  end.

(** [e] or [E], an optional sign and at least one digit. *)
Definition parse_exponent (s : string) : option Z :=
  match s with
  | EmptyString => Some 0
  | String c s' =>
      if Ascii.eqb (lower_char c) "e"
      then let '(neg, s1) := take_sign s' in
           let '(ds, r) := take_digits s1 in
           if is_empty ds || negb (is_empty r) then None
           else Some (if neg then - digits_val 0 ds else digits_val 0 ds)
      else None
  end.

(** Digits, an optional point and digits, an optional exponent. *)
Definition parse_decimal (sign : bool) (s : string) : option spec_float :=
  let '(ip, r1) := take_digits s in
  let '(fp, r2) :=
    match r1 with
    | String "." r => take_digits r
    | _ => (EmptyString, r1)
    end in
  if is_empty ip && is_empty fp then None
  else match parse_exponent r2 with
       | Some ex =>
           Some (of_decimal sign (digits_val 0 (ip +:+ fp))
                            (ex - Z.of_nat (String.length fp)))
       | None => None
       end.

(** [float(s)] for a [str]. *)
Definition of_string (s : string) : result spec_float :=
  match drop_underscores "000" (strip_by is_c_space s) with
  | None => Raise (ValueError "could not convert string to float")
  | Some t =>
      let '(sign, body) := take_sign t in
      match parse_decimal sign body with
      | Some f => Ok f
      | None =>
          match parse_inf_nan sign body with
          | Some f => Ok f
          | None => Raise (ValueError "could not convert string to float")
          end
      end
  end.

(** *** Writing a float: [repr], the shortest digits that read back *)

(** Is [m * 2^e < 10^k]? *)
Definition below_pow10 (m e k : Z) : bool :=
  m * 2 ^ Z.max e 0 * 10 ^ Z.max (- k) 0 <? 10 ^ Z.max k 0 * 2 ^ Z.max (- e) 0.

Fixpoint decpt_from (fuel : nat) (m e k : Z) : Z :=
  match fuel with
  | O => k
  | S fuel' => if below_pow10 m e k then k else decpt_from fuel' m e (k + 1)
  end.

(** The least [k] with [m * 2^e < 10^k]. *)
Definition decpt_of (m e : Z) : Z :=
  let b := Z.log2 m + 1 + e in
  decpt_from 700 m e ((b - 1) * 30103 / 100000).

(** One round of digit generation with [n] digits: the value is
    [x = m * 2^e], its neighbours in the doubles are half a gap [dlo] below
    and [dhi] above, and a digit string is good when it reads back as [x].
    Everything is scaled to integers. *)
Definition shortest_try (m e k : Z) (n : Z) : option Z :=
  let t := 10 ^ Z.max (n - k) 0 in
  let p2 := 2 ^ Z.max (e - 2) 0 in
  let x := 4 * m * p2 * t in
  let boundary := (m =? 2 ^ 52) && (-1074 <? e) in
  let dhi := 2 * p2 * t in
  let dlo := (if boundary then 1 else 2) * p2 * t in
  let u := 2 ^ Z.max (2 - e) 0 * 10 ^ Z.max (k - n) 0 in
  let q := x / u in
  let r := x mod u in
  let even := Z.even m in
  let j := r ?= dlo in
  let j1 := (r + dhi) ?= u in
  let low_ok := match j with Lt => true | Eq => even | Gt => false end in
  match j1, even with
  | Eq, true => Some (match j with Gt => q + 1 | _ => q end)
  | _, _ =>
      if low_ok
      then if r =? 0 then Some q
           else match j1 with
                | Gt => match 2 * r ?= u with
                        | Gt => Some (q + 1)
                        | Eq => Some (if Z.odd q then q + 1 else q)
                        | Lt => Some q
                        end
                | _ => Some q
                end
      else match j1 with
           | Gt => Some (q + 1)
           | _ => None
           end
  end.

Fixpoint shortest_from (fuel : nat) (m e k n : Z) : Z * Z :=
  match fuel with
  | O => (4 * m, n)
  | S fuel' =>
      match shortest_try m e k n with
      | Some d => (d, n)
      | None => shortest_from fuel' m e k (n + 1)
      end
  end.

Fixpoint drop_zeros (fuel : nat) (d : Z) : Z :=
  match fuel with
  | O => d
  | S fuel' => if (d mod 10 =? 0) && (0 <? d) then drop_zeros fuel' (d / 10) else d
  end.

(** The digits and the position of the decimal point:
    the value reads [0.DIGITS * 10^decpt]. *)
Definition shortest_digits (m e : Z) : string * Z :=
  let k := decpt_of m e in
  let '(d, n) := shortest_from 20 m e k 1 in
  let full := dec_nat d in
  (dec_nat (drop_zeros 20 d), k - n + Z.of_nat (String.length full)).

Fixpoint take_str (n : nat) (s : string) : string :=
  match n, s with
  | S n', String c s' => String c (take_str n' s')
  | _, _ => EmptyString
  end.

Fixpoint drop_str (n : nat) (s : string) : string :=
  match n, s with
  | S n', String _ s' => drop_str n' s'
  | _, _ => s
  end.

Definition repr_finite (m e : Z) : string :=
  let '(ds, decpt) := shortest_digits m e in
  let nd := Z.of_nat (String.length ds) in
  if (decpt <=? -4) || (16 <? decpt)
  then
    let ex := decpt - 1 in
    let mant := match ds with
                | String c EmptyString => ds
                | String c rest => String c (String "." rest)
                | EmptyString => ds
                end in
    mant +:+ "e" +:+ (if ex <? 0 then "-" else "+") +:+ format_0d 2 (Z.abs ex)
  else if decpt <=? 0
  then "0." +:+ zeros (Z.to_nat (- decpt)) +:+ ds
  else if nd <=? decpt
  then ds +:+ zeros (Z.to_nat (decpt - nd)) +:+ ".0"
  else take_str (Z.to_nat decpt) ds +:+ "." +:+ drop_str (Z.to_nat decpt) ds.

(** [repr(x)], which is also [str(x)], for a [float]. *)
Definition repr (f : spec_float) : string :=
  match f with
  | S754_nan => "nan"
  | S754_infinity s => if s then "-inf" else "inf"
  | S754_zero s => if s then "-0.0" else "0.0"
  | S754_finite s m e =>
      (if s then "-" else "") +:+ repr_finite (Zpos m) e
  end.

End PyFloat.

(* ===================================================================== *)
(** ** Python values *)
(* ===================================================================== *)

(** The values a CSV cell, a key-builder argument or a store property can
    hold: [None], [bool], [int], [float], [str] and [datetime.date]. *)
Inductive pyval : Type :=
  | VNone
  | VBool (b : bool)
  | VInt (n : Z)
  | VFloat (f : spec_float)
  | VStr (s : string)
  | VDate (year month day : Z).

Module Py.
Import PyText.

(** [d.isoformat()]: [YYYY-MM-DD]. *)
Definition isoformat (year month day : Z) : string :=
  format_0d 4 year +:+ "-" +:+ format_0d 2 month +:+ "-" +:+ format_0d 2 day.

(** [str(v)], which is also what an f-string writes for [{v}]. *)
Definition str (v : pyval) : string :=
  match v with
  | VNone => "None"
  | VBool b => if b then "True" else "False"
  | VInt n => str_int n
  | VFloat f => PyFloat.repr f
  | VStr s => s
  | VDate y m d => isoformat y m d
  end.

(** Truth value, as [or] tests it. *)
Definition truthy (v : pyval) : bool :=
  match v with
  | VNone => false
  | VBool b => b
  | VInt n => negb (n =? 0)
  | VFloat (S754_zero _) => false
  | VFloat _ => true
  | VStr s => negb (is_empty s)
  | VDate _ _ _ => true
  end.

(** [a or b] *)
Definition or (a b : pyval) : pyval := if truthy a then a else b.

Definition is_none (v : pyval) : bool :=
  match v with
  | VNone => true
  | _ => false
  end.

(** [isinstance(v, float)] *)
Definition is_float (v : pyval) : bool :=
  match v with
  | VFloat _ => true
  | _ => false
  end.

(** [pd.isna(v)] on a scalar: [None] and NaN are missing. *)
Definition isna (v : pyval) : bool :=
  match v with
  | VNone => true
  | VFloat f => PyFloat.is_nan f
  | _ => false
  end.

(** [pd.notna(v)] *)
Definition notna (v : pyval) : bool := negb (isna v).

(** [float(v)] *)
Definition float (v : pyval) : result spec_float :=
  match v with
  | VNone => Raise TypeError
  | VBool b => PyFloat.of_int (if b then 1 else 0)
  | VInt n => PyFloat.of_int n
  | VFloat f => Ok f
  | VStr s => PyFloat.of_string s
  | VDate _ _ _ => Raise TypeError
  end.

(** [int(float(v))] *)
Definition int_of_float (v : pyval) : result Z :=
  do f <- float v; PyFloat.to_int f.

(** [isinstance(v, int)], with the number: a [bool] is an [int] too. *)
Definition as_int (v : pyval) : option Z :=
  match v with
  | VInt n => Some n
  | VBool b => Some (if b then 1 else 0)
  | _ => None
  end.

Definition of_opt_int (o : option Z) : pyval :=
  match o with
  | Some n => VInt n
  | None => VNone
  end.

Definition of_opt_float (o : option spec_float) : pyval :=
  match o with
  | Some f => VFloat f
  | None => VNone
  end.

End Py.

(** A Python [dict] with [str] keys. *)
Abbreviation dict := (gmap string pyval).

(** [row.get(k)] *)
Definition dict_get (row : dict) (k : string) : pyval := default VNone (row !! k).

(* ===================================================================== *)
(** ** [src/clean/clean_load.py] *)
(* ===================================================================== *)

Module CleanLoad.
Import PyText.

(** The first argument of [build_flight_id]: a mapping (first call style)
    or a scalar (second call style). *)
Inductive key_arg : Type :=
  | KeyRow (row : dict)
  | KeyVal (v : pyval).

Definition missing_fields : exn := ValueError "Missing fields for build_flight_id".

(** The five values after alias lookup. *)
Definition key_fields (fl_date : key_arg) (carrier origin dest crs_dep_time : pyval)
  : pyval * pyval * pyval * pyval * pyval :=
  match fl_date with
  | KeyRow row =>
      (Py.or (Py.or (dict_get row "fl_date") (dict_get row "FL_DATE")) (dict_get row "date"),
       Py.or (Py.or (dict_get row "carrier") (dict_get row "op_carrier")) (dict_get row "OP_CARRIER"),
       Py.or (dict_get row "origin") (dict_get row "ORIGIN"),
       Py.or (dict_get row "dest") (dict_get row "DEST"),
       Py.or (dict_get row "crs_dep_time") (dict_get row "CRS_DEP_TIME"))
  | KeyVal v => (v, carrier, origin, dest, crs_dep_time)
  end.

Definition build_flight_id (fl_date : key_arg) (carrier origin dest crs_dep_time : pyval)
  : result string :=
  let '(fl_date_val, carrier_val, origin_val, dest_val, crs_val) :=
    key_fields fl_date carrier origin dest crs_dep_time in
  if Py.is_none fl_date_val || Py.is_none carrier_val || Py.is_none origin_val
     || Py.is_none dest_val || Py.is_none crs_val
  then Raise missing_fields
  else
    let fl_date_str :=
      match fl_date_val with
      | VDate y m d => Py.isoformat y m d
      | v => strip (Py.str v)
      end in
    let carrier_str := upper (strip (Py.str carrier_val)) in
    let origin_str := upper (strip (Py.str origin_val)) in
    let dest_str := upper (strip (Py.str dest_val)) in
    do crs_int <- Py.int_of_float crs_val;
    Ok (fl_date_str +:+ "|" +:+ carrier_str +:+ "|" +:+ origin_str +:+ "|"
        +:+ dest_str +:+ "-" +:+ format_0d 4 crs_int).

(** A mapping resolves a field to [v] when [v] is the first truthy value
    under the field's names, in their order. *)
Definition resolves (row : dict) (names : list string) (v : pyval) : Prop :=
  exists pre k post,
    names = (pre ++ k :: post)%list
    /\ (forall k', In k' pre -> Py.truthy (dict_get row k') = false)
    /\ dict_get row k = v /\ Py.truthy v = true.

(** A date as the key builder documents it: a [str] or a [date]. *)
Definition is_date_input (v : pyval) : bool :=
  match v with
  | VStr _ | VDate _ _ _ => true
  | _ => false
  end.

(** The [DATE] part of a key: the text of a [str] without the white space
    around it, a [date] in ISO form. *)
Definition date_text (v : pyval) : string :=
  match v with
  | VDate y m d => Py.isoformat y m d
  | v => strip (Py.str v)
  end.

(** A chunk of the CSV as [pd.read_csv] hands it over: the column labels and
    the rows of cells, each row as long as the header. *)
Record DataFrame : Type := {
  columns : list string;
  data : list (list pyval)
}.

Definition norm_cols (df : DataFrame) : DataFrame :=
  {| columns := map (fun c => lower (strip c)) (columns df);
     data := data df |}.

(** [r.to_dict()]: a later column of the same label wins. *)
Definition to_dict (cols : list string) (cells : list pyval) : dict :=
  fold_left (fun m kv => <[fst kv := snd kv]> m) (combine cols cells) ∅.

(** [chunk.iterrows()] followed by [r.to_dict()] *)
Definition iterrows (df : DataFrame) : list dict :=
  map (to_dict (columns df)) (data df).

(** A cell counts when it is there, not missing and not blank. *)
Definition usable (v : pyval) : bool :=
  Py.notna v && negb (is_empty (strip (Py.str v))).

Fixpoint pick (row : dict) (keys : list string) : pyval :=
  match keys with
  | [] => VNone
  | k :: keys' =>
      match row !! k with
      | Some v => if usable v then v else pick row keys'
      | None => pick row keys'
      end
  end.

Definition to_int (x : pyval) : option Z :=
  if Py.is_none x || (Py.is_float x && Py.isna x) then None
  else try_or_none (Py.int_of_float x).

Definition to_float (x : pyval) : option spec_float :=
  if Py.is_none x || (Py.is_float x && Py.isna x) then None
  else try_or_none (Py.float x).

(** The [row] dictionary that [main] sends to the store. *)
Record Row : Type := {
  flight_id : string;
  fl_date : string;
  op_carrier : string;
  op_carrier_fl_num : string;
  origin : string;
  dest : string;
  crs_dep_time : option Z;
  dep_time : option Z;
  dep_delay : option spec_float;
  arr_delay : option spec_float;
  cancelled : option Z;
  diverted : option Z
}.

Definition fl_date_keys : list string := ["fl_date"; "flight_date"; "flightdate"].
Definition op_carrier_keys : list string := ["op_carrier"; "carrier"; "unique_carrier"].
Definition fl_num_keys : list string := ["op_carrier_fl_num"; "flight_num"; "fl_num"].
Definition origin_keys : list string := ["origin"; "origin_airport"; "orig"].
Definition dest_keys : list string := ["dest"; "destination"; "dest_airport"].

(** The body of the row loop of [main]: [None] stands for [continue]. *)
Definition make_row (rec : dict) : option Row :=
  let fl_date := pick rec fl_date_keys in
  let op_carrier := pick rec op_carrier_keys in
  let op_carrier_fl_num := pick rec fl_num_keys in
  let origin := pick rec origin_keys in
  let dest := pick rec dest_keys in
  if Py.is_none origin || Py.is_none dest then None
  else Some {|
    flight_id := Py.str fl_date +:+ "_" +:+ Py.str op_carrier +:+ "_"
                 +:+ Py.str op_carrier_fl_num +:+ "_" +:+ Py.str origin +:+ "_"
                 +:+ Py.str dest;
    fl_date := Py.str fl_date;
    op_carrier := Py.str op_carrier;
    op_carrier_fl_num := Py.str op_carrier_fl_num;
    origin := strip (Py.str origin);
    dest := strip (Py.str dest);
    crs_dep_time := to_int (pick rec ["crs_dep_time"]);
    dep_time := to_int (pick rec ["dep_time"]);
    dep_delay := to_float (pick rec ["dep_delay"]);
    arr_delay := to_float (pick rec ["arr_delay"]);
    cancelled := to_int (pick rec ["cancelled"]);
    diverted := to_int (pick rec ["diverted"])
  |}.

(** The row as the query parameter: the twelve entries of the dictionary. *)
Definition row_dict (r : Row) : dict :=
  <["flight_id" := VStr (flight_id r)]>
  (<["fl_date" := VStr (fl_date r)]>
  (<["op_carrier" := VStr (op_carrier r)]>
  (<["op_carrier_fl_num" := VStr (op_carrier_fl_num r)]>
  (<["origin" := VStr (origin r)]>
  (<["dest" := VStr (dest r)]>
  (<["crs_dep_time" := Py.of_opt_int (crs_dep_time r)]>
  (<["dep_time" := Py.of_opt_int (dep_time r)]>
  (<["dep_delay" := Py.of_opt_float (dep_delay r)]>
  (<["arr_delay" := Py.of_opt_float (arr_delay r)]>
  (<["cancelled" := Py.of_opt_int (cancelled r)]>
  (<["diverted" := Py.of_opt_int (diverted r)]> ∅))))))))))).

(** Every record of the input, in reading order, as the row loop sees it. *)
Definition records (chunks : list DataFrame) : list dict :=
  flat_map (fun chunk => iterrows (norm_cols chunk)) chunks.

(** The filter of the row loop: no origin or no destination. *)
Definition excluded (rec : dict) : bool :=
  Py.is_none (pick rec origin_keys) || Py.is_none (pick rec dest_keys).

(** The five resolved values that [flight_id] is written from. *)
Definition id_values (rec : dict) : list pyval :=
  [pick rec fl_date_keys; pick rec op_carrier_keys; pick rec fl_num_keys;
   pick rec origin_keys; pick rec dest_keys].

(** The five fields of the documented flight identity:
    date, carrier, origin, destination and scheduled departure time. *)
Definition identity_values (rec : dict) : list pyval :=
  [pick rec fl_date_keys; pick rec op_carrier_keys; pick rec origin_keys;
   pick rec dest_keys; pick rec ["crs_dep_time"]].

Definition no_underscore (s : string) : bool := negb (mem_char "_" s).

(** *** The store

    The [:CleanFlight] nodes of the graph. The uniqueness constraint that
    [main] ensures first makes [flight_id] a key, so the nodes form a finite
    map from [flight_id] to a node: its labels and its properties. *)
Record Node : Type := {
  labels : gset string;
  props : dict
}.

Abbreviation store := (gmap string Node).

(** The node that [MERGE] creates when none matches. *)
Definition new_node (fid : string) : Node :=
  {| labels := {["CleanFlight"]}; props := {["flight_id" := VStr fid]} |}.

(** [SET f += row] on one property: an entry of the row replaces the
    property, a [null] entry removes it, a key the row lacks is kept. *)
Definition set_prop (old new : option pyval) : option pyval :=
  match new with
  | Some VNone => None
  | Some v => Some v
  | None => old
  end.

(** [SET f += row  SET f:Flight] *)
Definition update_node (r : Row) (n : Node) : Node :=
  {| labels := labels n ∪ {["Flight"]};
     props := merge set_prop (props n) (row_dict r) |}.

(** One row of [UNWIND $rows AS row  MERGE ...  SET ...]. *)
Definition upsert_row (s : store) (r : Row) : store :=
  let fid := flight_id r in
  <[fid := update_node r (default (new_node fid) (s !! fid))]> s.

(** [session.run(cypher, rows=rows).consume()] *)
Definition run_upsert (s : store) (rows : list Row) : store :=
  fold_left upsert_row rows s.

(** The last row of a batch that carries a given [flight_id]. *)
Fixpoint last_with (fid : string) (batch : list Row) : option Row :=
  match batch with
  | [] => None
  | r :: batch' =>
      match last_with fid batch' with
      | Some r' => Some r'
      | None => if String.eqb (flight_id r) fid then Some r else None
      end
  end.

(** *** The loader *)

(** The state of the loops of [main]: the store, [total_inserted] and the
    accumulator [rows]. *)
Record Loader : Type := {
  db : store;
  total_inserted : Z;
  rows : list Row
}.

(** [session.run(...)], [total_inserted += len(rows)] *)
Definition write_batch (st : Loader) : Loader :=
  {| db := run_upsert (db st) (rows st);
     total_inserted := total_inserted st + Z.of_nat (length (rows st));
     rows := rows st |}.

(** The same, then [rows = []]. *)
Definition flush (st : Loader) : Loader :=
  let st' := write_batch st in
  {| db := db st'; total_inserted := total_inserted st'; rows := [] |}.

(** One turn of [for _, r in chunk.iterrows()]. *)
Definition row_step (batch_size : Z) (st : Loader) (rec : dict) : Loader :=
  match make_row rec with
  | None => st
  | Some row =>
      let st' := {| db := db st; total_inserted := total_inserted st;
                    rows := rows st ++ [row] |} in
      if batch_size <=? Z.of_nat (length (rows st')) then flush st' else st'
  end.

(** One turn of [for chunk in pd.read_csv(...)]. *)
Definition chunk_step (batch_size : Z) (st : Loader) (chunk : DataFrame) : Loader :=
  let chunk := norm_cols chunk in
  let st0 := {| db := db st; total_inserted := total_inserted st; rows := [] |} in
  let st1 := fold_left (row_step batch_size) (iterrows chunk) st0 in
  match rows st1 with
  | [] => st1
  | _ :: _ => write_batch st1
  end.

(** [main]: the chunks that the CSV reader yields, [CLEAN_BATCH] and the
    store before; the store after and the total that is printed. *)
Definition main (chunks : list DataFrame) (batch_size : Z) (s : store) : store * Z :=
  let st := fold_left (chunk_step batch_size) chunks
              {| db := s; total_inserted := 0; rows := [] |} in
  (db st, total_inserted st).

(** Two chunks with the same cells whose headers differ by letter case and
    surrounding white space only. *)
Definition same_header (df df' : DataFrame) : Prop :=
  Forall2 code_variant (columns df) (columns df') /\ data df = data df'.

(** The rows made of a run of records, the excluded ones left out. *)
Fixpoint made_rows (recs : list dict) : list Row :=
  match recs with
  | [] => []
  | rec :: recs' =>
      match make_row rec with
      | Some row => row :: made_rows recs'
      | None => made_rows recs'
      end
  end.

(** *** Sample inputs *)

Definition nan : pyval := VFloat S754_nan.

(** Three rows; the second has no destination. *)
Definition three_rows : DataFrame :=
  {| columns := ["FL_DATE"; "OP_CARRIER"; "OP_CARRIER_FL_NUM"; "ORIGIN"; "DEST";
                 "CRS_DEP_TIME"];
     data := [ [VStr "2020-01-01"; VStr "AA"; VInt 100; VStr "EWR"; VStr "JFK"; VInt 900];
               [VStr "2020-01-01"; VStr "AA"; VInt 101; VStr "EWR"; nan; VInt 930];
               [VStr "2020-01-02"; VStr "DL"; VInt 7; VStr "JFK"; VStr "ATL"; VInt 1015] ] |}.

(** Two rows that no [CleanFlight] would accept: a time of 2400, and no
    date, carrier or flight number. *)
Definition unchecked_rows : DataFrame :=
  {| columns := ["FL_DATE"; "OP_CARRIER"; "OP_CARRIER_FL_NUM"; "ORIGIN"; "DEST";
                 "CRS_DEP_TIME"];
     data := [ [VStr "2020-01-01"; VStr "AA"; VInt 100; VStr "EWR"; VStr "JFK"; VInt 2400];
               [nan; nan; nan; VStr "EWR"; VStr "JFK"; VInt 900] ] |}.

(** A record of a flight of AA from EWR to JFK on 2020-01-01, with the
    flight number and the scheduled time left open. *)
Definition flight_record (fl_num crs : Z) : dict :=
  to_dict ["fl_date"; "op_carrier"; "op_carrier_fl_num"; "origin"; "dest"; "crs_dep_time"]
          [VStr "2020-01-01"; VStr "AA"; VInt fl_num; VStr "EWR"; VStr "JFK"; VInt crs].

(** A row of flight AA100 with a departure delay, or without one. *)
Definition delayed_row (delay : option spec_float) : Row :=
  {| flight_id := "2020-01-01_AA_100_EWR_JFK"; fl_date := "2020-01-01";
     op_carrier := "AA"; op_carrier_fl_num := "100"; origin := "EWR"; dest := "JFK";
     crs_dep_time := Some 900; dep_time := None; dep_delay := delay;
     arr_delay := None; cancelled := Some 0; diverted := Some 0 |}.

(** A mapping for the key builder with every field there, at midnight. *)
Definition midnight_row : dict :=
  {[ "fl_date" := VStr "2020-01-01"; "carrier" := VStr "AA"; "origin" := VStr "EWR";
     "dest" := VStr "JFK"; "crs_dep_time" := VInt 0 ]}.

End CleanLoad.

(* ===================================================================== *)
(** ** [src/models/clean_flight.py] *)
(* ===================================================================== *)

Module Model.
Import PyText.

(** The module defines the validators twice, for Pydantic v2 and for v1,
    with the same bodies; what follows is the v2 branch, where a validator
    receives the field after its type has been checked.

    The fields of the model, typed as the class annotates them. *)
Record CleanFlight : Type := {
  flight_id : string;
  fl_date : Z * Z * Z;
  carrier : string;
  origin : string;
  dest : string;
  crs_dep_time : Z;
  dep_delay : option spec_float;
  arr_delay : option spec_float;
  cancelled : Z;
  diverted : Z;
  distance : option spec_float
}.

Definition not_an_integer : exn :=
  ValueError "crs_dep_time must be an integer HHMM (e.g., 930, 1430)".
Definition out_of_range : exn :=
  ValueError "crs_dep_time must be between 0 and 2359".
Definition bad_minutes : exn :=
  ValueError "crs_dep_time minutes must be < 60".
Definition null_code : exn := ValueError "code cannot be null".
Definition empty_code : exn := ValueError "code cannot be empty".

Definition validate_crs_dep_time (v : pyval) : result pyval :=
  match Py.as_int v with
  | None => Raise not_an_integer
  | Some n =>
      if (n <? 0) || (2359 <? n) then Raise out_of_range
      else if 60 <=? n mod 100 then Raise bad_minutes
      else Ok v
  end.

(** [None] is Python's [None], [Some s] a [str]. *)
Definition normalize_codes (v : option string) : result string :=
  match v with
  | None => Raise null_code
  | Some s =>
      let s' := upper (strip s) in
      if (String.length s' =? 0)%nat then Raise empty_code else Ok s'
  end.

(** [CleanFlight(...)]: the field validators run over the typed fields in
    the order of the class body; the first failure is the one reported
    here. *)
Definition validate (c : CleanFlight) : result CleanFlight :=
  do carrier' <- normalize_codes (Some (carrier c));
  do origin' <- normalize_codes (Some (origin c));
  do dest' <- normalize_codes (Some (dest c));
  do t <- validate_crs_dep_time (VInt (crs_dep_time c));
  match Py.as_int t with
  | Some n =>
      Ok {| flight_id := flight_id c; fl_date := fl_date c;
            carrier := carrier'; origin := origin'; dest := dest';
            crs_dep_time := n;
            dep_delay := dep_delay c; arr_delay := arr_delay c;
            cancelled := cancelled c; diverted := diverted c;
            distance := distance c |}
  | None => Raise TypeError
  end.

Definition sample_flight : CleanFlight :=
  {| flight_id := "2020-01-01-AA-EWR-JFK-0900"; fl_date := (2020, 1, 1);
     carrier := "AA"; origin := "EWR"; dest := "JFK"; crs_dep_time := 900;
     dep_delay := None; arr_delay := None; cancelled := 0; diverted := 0;
     distance := None |}.

(** [c] with its three codes stripped and in upper case. *)
Definition with_codes (c : CleanFlight) : CleanFlight :=
  {| flight_id := flight_id c; fl_date := fl_date c;
     carrier := upper (strip (carrier c)); origin := upper (strip (origin c));
     dest := upper (strip (dest c)); crs_dep_time := crs_dep_time c;
     dep_delay := dep_delay c; arr_delay := arr_delay c;
     cancelled := cancelled c; diverted := diverted c; distance := distance c |}.

(** A time in [HHMM] form. *)
Definition valid_hhmm (t : Z) : Prop := 0 <= t <= 2359 /\ t mod 100 < 60.

(** A record in normal form: the three codes are non-empty, upper case and
    trimmed, and the time is a valid [HHMM]. *)
Definition normalized (c : CleanFlight) : Prop :=
  normal_code (carrier c) = true /\ normal_code (origin c) = true
  /\ normal_code (dest c) = true /\ valid_hhmm (crs_dep_time c).

End Model.

(* ===================================================================== *)
(** ** [src/aggregate/build_gold.py]: configuration and connectivity *)
(* ===================================================================== *)

(** The process environment, [os.environ]. *)
Abbreviation environ := (gmap string string).

(** [os.getenv(name, default)], as [clean_load.py] and [viz/app.py] read
    their settings. *)
Definition getenv (e : environ) (name dflt : string) : string :=
  default dflt (e !! name).

Module Gold.
Import PyText.

(** [env(name, default)]: [v if v and v.strip() else default]. *)
Definition env (e : environ) (name dflt : string) : string :=
  match e !! name with
  | Some v => if negb (is_empty v) && negb (is_empty (strip v)) then v else dflt
  | None => dflt
  end.

(** What the [k]-th call of [driver.verify_connectivity()] does: it returns
    ([None]) or raises an exception, given by its text ([Some e]). *)
Abbreviation verifier := (nat -> option string).

(** How [wait_for_neo4j] ends: it returns, or it raises a [RuntimeError]
    with a message and the exception it was raised from. *)
Inductive wait_outcome : Type :=
  | Connected
  | NotReachable (msg : string) (cause : option string).

(** The outcome with what happened on the way: the calls of
    [verify_connectivity] and the calls of [time.sleep(sleep_s)]. *)
Record Waited : Type := {
  outcome : wait_outcome;
  calls : nat;
  sleeps : nat
}.

(** The [for _ in range(attempts)] loop with [n] turns left, after [k]
    calls, and the two [raise] statements behind it. *)
Fixpoint wait_loop (verify : verifier) (n k : nat) (last_err : option string)
    (slept : nat) : Waited :=
  match n with
  | O =>
      match last_err with
      | None =>
          {| outcome := NotReachable
               "Neo4j not reachable after retries (no exception captured)." None;
             calls := k; sleeps := slept |}
      | Some e =>
          {| outcome := NotReachable
               ("Neo4j not reachable after retries. Last error: " +:+ e) (Some e);
             calls := k; sleeps := slept |}
      end
  | S n' =>
      match verify k with
      | None => {| outcome := Connected; calls := S k; sleeps := slept |}
      | Some e => wait_loop verify n' (S k) (Some e) (S slept)
      end
  end.

(** [wait_for_neo4j(driver, attempts)]; [range] of a number below 1 is
    empty. *)
Definition wait_for_neo4j (verify : verifier) (attempts : Z) : Waited :=
  wait_loop verify (Z.to_nat attempts) 0 None 0.

End Gold.

(* ===================================================================== *)
(** ** [src/viz/app.py]: queries with retries *)
(* ===================================================================== *)

Module Viz.

Section RunQuery.
(** The rows of a result, as [pd.DataFrame([r.data() for r in res])]. *)
Variable Frame : Type.

(** What one turn of the [try] block does: it returns the frame, raises
    [ServiceUnavailable], or raises something else. *)
Inductive attempt : Type :=
  | Returned (df : Frame)
  | Unavailable (e : string)
  | Failed (e : string).

Definition is_unavailable (a : attempt) : Prop :=
  exists e, a = Unavailable e.

(** How [run_query] ends: with the frame, with the exception of the [try]
    block that was not caught, or with the [RuntimeError] raised from the
    last [ServiceUnavailable]. *)
Inductive query_outcome : Type :=
  | Rows (df : Frame)
  | Propagated (e : string)
  | GaveUp (cause : option string).

Record Queried : Type := {
  answer : query_outcome;
  tries : nat;
  naps : nat
}.

(** The [for _ in range(retries)] loop with [n] turns left, after [k]
    turns, and the [raise] behind it. *)
Fixpoint query_loop (session : nat -> attempt) (n k : nat) (last_err : option string)
    (slept : nat) : Queried :=
  match n with
  | O => {| answer := GaveUp last_err; tries := k; naps := slept |}
  | S n' =>
      match session k with
      | Returned df => {| answer := Rows df; tries := S k; naps := slept |}
      | Unavailable e => query_loop session n' (S k) (Some e) (S slept)
      | Failed e => {| answer := Propagated e; tries := S k; naps := slept |}
      end
  end.

Definition run_query (session : nat -> attempt) (retries : Z) : Queried :=
  query_loop session (Z.to_nat retries) 0 None 0.

End RunQuery.

Arguments is_unavailable {Frame} a.
Arguments Returned {Frame} df.
Arguments Unavailable {Frame} e.
Arguments Failed {Frame} e.
Arguments Rows {Frame} df.
Arguments Propagated {Frame} e.
Arguments GaveUp {Frame} cause.
Arguments answer {Frame} q.
Arguments tries {Frame} q.
Arguments naps {Frame} q.
Arguments query_loop {Frame} session n k last_err slept.
Arguments run_query {Frame} session retries.

End Viz.

(* ===================================================================== *)
(** ** [src/utils/logging_config.py] *)
(* ===================================================================== *)

Module Logging.
Import PyText.

(** A handler: whether it is a [logging.StreamHandler] (or of a subclass),
    its level, and the [fmt] and [datefmt] of its formatter, if it has one. *)
Record Handler : Type := {
  is_stream : bool;
  handler_level : Z;
  formatter : option (string * string)
}.

Record Logger : Type := {
  logger_name : string;
  level : Z;
  propagate : bool;
  handlers : list Handler
}.

(** The loggers that exist, by name. *)
Abbreviation loggers := (gmap string Logger).

(** [logging.getLogger("")] and [logging.getLogger("root")] are the root
    logger. *)
Definition logger_key (name : string) : string :=
  if is_empty name then "root" else name.

(** A logger as [logging.getLogger] creates it: level [NOTSET], propagating,
    without handlers. *)
Definition fresh_logger (name : string) : Logger :=
  {| logger_name := name; level := 0; propagate := true; handlers := [] |}.

Definition getLogger (reg : loggers) (name : string) : Logger :=
  default (fresh_logger (logger_key name)) (reg !! logger_key name).

Definition console_handler (lvl : Z) : Handler :=
  {| is_stream := true; handler_level := lvl;
     formatter := Some ("%(asctime)s | %(levelname)s | %(name)s | %(message)s",
                        "%Y-%m-%d %H:%M:%S") |}.

(** [setup_logging(level, name)]: the loggers afterwards and the logger
    that is returned. *)
Definition setup_logging (reg : loggers) (lvl : Z) (name : string) : loggers * Logger :=
  let logger := getLogger reg name in
  let hs :=
    if existsb is_stream (handlers logger) then handlers logger
    else (handlers logger ++ [console_handler lvl])%list in
  let logger' :=
    {| logger_name := logger_name logger; level := lvl; propagate := false;
       handlers := hs |} in
  (<[logger_key name := logger']> reg, logger').

Definition INFO : Z := 20.
Definition DEBUG : Z := 10.

End Logging.

(* ===================================================================== *)
(** * Properties *)
(* ===================================================================== *)

Local Open Scope list_scope.
Local Open Scope Z_scope.


(** ** Characters and text *)

Section TextFacts.
Import PyText.

(** Facts about single characters are settled on all 256 of them. *)
Ltac by_char c := destruct c as [[] [] [] [] [] [] [] []].

Lemma upper_char_space (c : ascii) : is_space (upper_char c) = is_space c.
Proof. by_char c; reflexivity. Qed.

Lemma upper_char_idem (c : ascii) : upper_char (upper_char c) = upper_char c.
Proof. by_char c; reflexivity. Qed.

Lemma upper_char_fixes (c : ascii) : is_lower c = false -> upper_char c = c.
Proof. unfold upper_char. intros ->. reflexivity. Qed.


Lemma same_letter_upper (c c' : ascii) :
  same_letter c c' = true -> upper_char c = upper_char c'.
Proof.
  unfold same_letter. intros H.
  apply orb_prop in H as [H|H]; [apply orb_prop in H as [H|H]|].
  - apply Ascii.eqb_eq in H. now subst.
  - apply andb_prop in H as [_ H]. apply Ascii.eqb_eq in H. subst.
    now rewrite upper_char_idem.
  - apply andb_prop in H as [_ H]. apply Ascii.eqb_eq in H. subst.
    now rewrite upper_char_idem.
Qed.

Lemma same_letter_space (c c' : ascii) :
  same_letter c c' = true -> is_space c = is_space c'.
Proof.
  intros H. apply same_letter_upper in H.
  rewrite <- (upper_char_space c), H. apply upper_char_space.
Qed.

Lemma case_variant_upper (s t : string) :
  case_variant s t = true -> upper s = upper t.
Proof.
  revert t. induction s as [|c s IH]; intros [|c' t] H; simpl in *;
    try reflexivity; try discriminate.
  apply andb_prop in H as [Hc Hs].
  now rewrite (same_letter_upper _ _ Hc), (IH _ Hs).
Qed.

Lemma case_variant_empty (s t : string) :
  case_variant s t = true -> is_empty s = is_empty t.
Proof. destruct s, t; simpl; intros H; try reflexivity; discriminate. Qed.

Lemma case_variant_lstrip (s t : string) :
  case_variant s t = true ->
  case_variant (lstrip_by is_space s) (lstrip_by is_space t) = true.
Proof.
  revert t. induction s as [|c s IH]; intros [|c' t] H; simpl in *;
    try reflexivity; try discriminate.
  apply andb_prop in H as [Hc Hs].
  rewrite <- (same_letter_space _ _ Hc).
  destruct (is_space c); [now apply IH|].
  simpl. now rewrite Hc, Hs.
Qed.

Lemma case_variant_rstrip (s t : string) :
  case_variant s t = true ->
  case_variant (rstrip_by is_space s) (rstrip_by is_space t) = true.
Proof.
  revert t. induction s as [|c s IH]; intros [|c' t] H; simpl in *;
    try reflexivity; try discriminate.
  apply andb_prop in H as [Hc Hs].
  specialize (IH _ Hs).
  rewrite <- (same_letter_space _ _ Hc), <- (case_variant_empty _ _ IH).
  destruct (is_space c && is_empty (rstrip_by is_space s)); [reflexivity|].
  simpl. now rewrite Hc, IH.
Qed.

Lemma case_variant_strip (s t : string) :
  case_variant s t = true -> upper (strip s) = upper (strip t).
Proof.
  intros H. apply case_variant_upper, case_variant_rstrip, case_variant_lstrip, H.
Qed.

Lemma lstrip_all_space (l : string) :
  all_space l = true -> lstrip_by is_space l = "".
Proof.
  induction l as [|c l IH]; simpl; [reflexivity|].
  intros H. apply andb_prop in H as [-> Hl]. now apply IH.
Qed.

Lemma lstrip_pad_left (l s : string) :
  all_space l = true -> lstrip_by is_space (l +:+ s) = lstrip_by is_space s.
Proof.
  induction l as [|c l IH]; [reflexivity|].
  change (String c l +:+ s) with (String c (l +:+ s)). cbn [all_space lstrip_by].
  intros H. apply andb_prop in H as [-> Hl]. now apply IH.
Qed.

Lemma rstrip_all_space (r : string) :
  all_space r = true -> rstrip_by is_space r = "".
Proof.
  induction r as [|c r IH]; simpl; [reflexivity|].
  intros H. apply andb_prop in H as [-> Hr]. now rewrite (IH Hr).
Qed.

Lemma rstrip_pad_right (s r : string) :
  all_space r = true -> rstrip_by is_space (s +:+ r) = rstrip_by is_space s.
Proof.
  intros Hr. induction s as [|c s IH].
  - now apply rstrip_all_space.
  - change (String c s +:+ r) with (String c (s +:+ r)).
    cbn [rstrip_by]. now rewrite IH.
Qed.

Lemma strip_pad_right (s r : string) :
  all_space r = true -> strip (s +:+ r) = strip s.
Proof.
  intros Hr. unfold strip, strip_by. induction s as [|c s IH]; simpl.
  - change ("" +:+ r) with r. now rewrite (lstrip_all_space _ Hr).
  - change (String c s +:+ r) with (String c (s +:+ r)).
    cbn [lstrip_by]. destruct (is_space c); [exact IH|].
    change (String c (s +:+ r)) with (String c s +:+ r).
    now apply rstrip_pad_right.
Qed.

Lemma strip_padded (core x : string) : padded core x -> strip x = strip core.
Proof.
  intros (l & r & Hl & Hr & ->).
  unfold strip, strip_by at 1. rewrite (lstrip_pad_left _ _ Hl).
  apply (strip_pad_right _ _ Hr).
Qed.

Lemma code_variant_strip (x y : string) :
  code_variant x y -> upper (strip x) = upper (strip y).
Proof.
  intros (cx & cy & Hx & Hy & Hv).
  rewrite (strip_padded _ _ Hx), (strip_padded _ _ Hy).
  now apply case_variant_strip.
Qed.

(** A text in normal form is left alone by [strip] and by [upper]. *)

Lemma lstrip_head (s : string) : head_space s = false -> lstrip_by is_space s = s.
Proof. destruct s as [|c s]; simpl; [reflexivity|]. now intros ->. Qed.

Lemma rstrip_last (s : string) : last_space s = false -> rstrip_by is_space s = s.
Proof.
  induction s as [|c s IH]; [reflexivity|].
  destruct s as [|c' s].
  - simpl. now intros ->.
  - intros H. change (last_space (String c' s) = false) in H.
    change (rstrip_by is_space (String c (String c' s)))
      with (let r := rstrip_by is_space (String c' s) in
            if is_space c && is_empty r then "" else String c r).
    rewrite (IH H). simpl. now rewrite andb_false_r.
Qed.

Lemma upper_no_lower (s : string) : has_lower s = false -> upper s = s.
Proof.
  induction s as [|c s IH]; simpl; [reflexivity|].
  intros H. apply orb_false_elim in H as [Hc Hs].
  now rewrite (upper_char_fixes _ Hc), (IH Hs).
Qed.

Lemma normal_code_fixed (s : string) :
  normal_code s = true -> upper (strip s) = s /\ is_empty s = false.
Proof.
  unfold normal_code. intros H.
  apply andb_prop in H as [H H4]. apply andb_prop in H as [H H3].
  apply andb_prop in H as [H1 H2].
  apply negb_true_iff in H1, H2, H3, H4. split; [|exact H1].
  unfold strip, strip_by. now rewrite (lstrip_head _ H3), (rstrip_last _ H4), upper_no_lower.
Qed.

(** What [strip] and [upper] produce is in normal form, unless it is empty. *)

Lemma upper_char_not_lower (c : ascii) : is_lower (upper_char c) = false.
Proof. by_char c; reflexivity. Qed.

Lemma has_lower_upper (s : string) : has_lower (upper s) = false.
Proof.
  induction s as [|c s IH]; simpl; [reflexivity|].
  now rewrite upper_char_not_lower, IH.
Qed.

Lemma head_space_upper (s : string) : head_space (upper s) = head_space s.
Proof. destruct s; simpl; [reflexivity|apply upper_char_space]. Qed.

Lemma last_space_upper (s : string) : last_space (upper s) = last_space s.
Proof.
  induction s as [|c s IH]; [reflexivity|].
  destruct s as [|c' s]; [apply upper_char_space|exact IH].
Qed.

Lemma head_space_lstrip (s : string) : head_space (lstrip_by is_space s) = false.
Proof.
  induction s as [|c s IH]; simpl; [reflexivity|].
  destruct (is_space c) eqn:E; [exact IH|exact E].
Qed.

Lemma head_space_rstrip (s : string) :
  head_space s = false -> head_space (rstrip_by is_space s) = false.
Proof.
  destruct s as [|c s]; simpl; [reflexivity|]. intros E. rewrite E. simpl. exact E.
Qed.

Lemma last_space_rstrip (s : string) : last_space (rstrip_by is_space s) = false.
Proof.
  induction s as [|c s IH]; simpl; [reflexivity|].
  destruct (is_space c) eqn:Ec; simpl.
  - destruct (rstrip_by is_space s) eqn:Er; [reflexivity|exact IH].
  - destruct (rstrip_by is_space s) eqn:Er; [exact Ec|exact IH].
Qed.

Lemma normal_code_strip_upper (s : string) :
  is_empty (upper (strip s)) = false -> normal_code (upper (strip s)) = true.
Proof.
  intros H. unfold normal_code.
  rewrite H, has_lower_upper, head_space_upper, last_space_upper.
  unfold strip, strip_by.
  now rewrite (head_space_rstrip _ (head_space_lstrip s)), last_space_rstrip.
Qed.

End TextFacts.

(** ** Integers through [float] and back *)

Section FloatFacts.

Lemma digits2_size (p : positive) : digits2_pos p = Pos.size p.
Proof. induction p; simpl; congruence. Qed.

Lemma digits2_shift (p k : positive) :
  digits2_pos (Pos.iter xO p k) = (digits2_pos p + k)%positive.
Proof.
  rewrite (Pos.iter_swap_gen _ _ digits2_pos xO Pos.succ) by reflexivity.
  induction k as [|k IH] using Pos.peano_ind.
  - simpl. lia.
  - rewrite Pos.iter_succ, IH. lia.
Qed.

Lemma Zpos_shift (p k : positive) :
  Zpos (Pos.iter xO p k) = Zpos p * 2 ^ Zpos k.
Proof.
  rewrite (Pos.iter_swap_gen _ _ Zpos xO (Z.mul 2)) by reflexivity.
  induction k as [|k IH] using Pos.peano_ind.
  - simpl. lia.
  - rewrite Pos.iter_succ, IH, Pos2Z.inj_succ, Z.pow_succ_r by lia. lia.
Qed.

Lemma digits2_bound (p : positive) :
  Zpos p < 2 ^ 53 -> Zpos (digits2_pos p) <= 53.
Proof.
  intros H. rewrite digits2_size.
  destruct (Z.le_gt_cases (Zpos (Pos.size p)) 53) as [|Hgt]; [assumption|exfalso].
  pose proof (Pos.size_le p) as Hle.
  assert (2 ^ 54 <= 2 ^ Zpos (Pos.size p)) by (apply Z.pow_le_mono_r; lia).
  assert (Zpos (2 ^ Pos.size p) = 2 ^ Zpos (Pos.size p)) as E
    by apply Pos2Z.inj_pow.
  assert (Zpos (2 ^ Pos.size p) <= Zpos p~0) by exact Hle.
  change (2 ^ 54) with (2 * 2 ^ 53) in *. lia.
Qed.

(** A mantissa of full width is already rounded. *)
Lemma round_full_width (s : bool) (m : positive) (e : Z) :
  digits2_pos m = 53%positive -> -1074 <= e <= 971 ->
  binary_round_aux PyFloat.prec PyFloat.emax s (Zpos m) e loc_Exact = S754_finite s m e.
Proof.
  intros Hd He.
  assert (fexp PyFloat.prec PyFloat.emax (Zpos (digits2_pos m) + e) - e = 0) as Hf.
  { rewrite Hd. unfold fexp, emin, PyFloat.prec, PyFloat.emax. lia. }
  unfold binary_round_aux, shr_fexp. cbn [Zdigits2 shr_record_of_loc].
  rewrite Hf. cbn [shr shr_m loc_of_shr_record round_nearest_even Zdigits2 shr_record_of_loc].
  rewrite Hf. cbn [shr shr_m].
  unfold PyFloat.prec, PyFloat.emax.
  destruct (Z.leb_spec e (1024 - 53)); [reflexivity|lia].
Qed.

Lemma round_small_int (s : bool) (p : positive) :
  Zpos p < 2 ^ 53 ->
  exists m e, binary_round PyFloat.prec PyFloat.emax s p 0 = S754_finite s m e
              /\ -52 <= e <= 0 /\ Zpos m = Zpos p * 2 ^ (- e).
Proof.
  intros Hp. pose proof (digits2_bound p Hp) as Hd.
  unfold binary_round.
  assert (fexp PyFloat.prec PyFloat.emax (Zpos (digits2_pos p) + 0)
          = Zpos (digits2_pos p) - 53) as ->.
  { unfold fexp, emin, PyFloat.prec, PyFloat.emax. lia. }
  unfold shl_align.
  destruct (Zpos (digits2_pos p) - 53 - 0) as [|k|k] eqn:Ek; try lia.
  - exists p, 0. split; [|split; [lia|simpl; lia]].
    apply round_full_width; [|lia]. apply Pos2Z.inj. lia.
  - exists (Pos.iter xO p k), (Zpos (digits2_pos p) - 53).
    split; [|split; [lia|]].
    + apply round_full_width; [|lia].
      rewrite digits2_shift. apply Pos2Z.inj. rewrite Pos2Z.inj_add. lia.
    + rewrite Zpos_shift. f_equal. f_equal. lia.
Qed.

Lemma int_of_float_pos (s : bool) (p : positive) :
  Zpos p < 2 ^ 53 ->
  exists f, binary_round PyFloat.prec PyFloat.emax s p 0 = f
            /\ PyFloat.is_nan f = false
            /\ (match f with S754_infinity _ => False | _ => True end)
            /\ PyFloat.to_int f = Ok (if s then - Zpos p else Zpos p).
Proof.
  intros Hp. destruct (round_small_int s p Hp) as (m & e & -> & He & Hm).
  eexists. split; [reflexivity|]. split; [reflexivity|]. split; [exact I|].
  unfold PyFloat.to_int. rewrite Hm.
  destruct (Z.leb_spec 0 e).
  - assert (e = 0) as -> by lia. simpl. f_equal. destruct s; lia.
  - rewrite Z.div_mul by (apply Z.pow_nonzero; lia). reflexivity.
Qed.

(** [int(float(n)) == n] as long as [n] fits the 53 bits of a double. *)
Lemma int_of_float_exact (n : Z) :
  Z.abs n <= 2 ^ 53 -> Py.int_of_float (VInt n) = Ok n.
Proof.
  intros Hn. unfold Py.int_of_float, Py.float, PyFloat.of_int.
  destruct (Z.eq_dec (Z.abs n) (2 ^ 53)) as [E|E].
  - destruct n as [|p|p]; [discriminate| |]; simpl in E; injection E as ->; reflexivity.
  - destruct n as [|p|p]; [reflexivity| |]; simpl in Hn, E.
    + destruct (int_of_float_pos false p ltac:(lia)) as (f & Hf & _ & Hinf & Ht).
      unfold binary_normalize. rewrite Hf. destruct f; try contradiction; exact Ht.
    + destruct (int_of_float_pos true p ltac:(lia)) as (f & Hf & _ & Hinf & Ht).
      unfold binary_normalize. rewrite Hf. destruct f; try contradiction; exact Ht.
Qed.

End FloatFacts.

(** ** The four digits of the scheduled time *)

Section TimeDigits.
Import PyText.

Lemma in_zrange (n : nat) (start t : Z) :
  start <= t < start + Z.of_nat n -> In t (zrange start n).
Proof.
  revert start. induction n as [|n IH]; intros start H; [lia|].
  simpl. destruct (Z.eq_dec start t); [now left|right].
  apply IH. lia.
Qed.

Lemma format_4d_all :
  forallb (fun t => String.eqb (format_0d 4 t) (four_digits t))
          (zrange 0 (Z.to_nat 10000)) = true.
Proof. vm_compute. reflexivity. Qed.

Lemma format_4d (t : Z) : 0 <= t <= 9999 -> format_0d 4 t = four_digits t.
Proof.
  intros Ht. pose proof format_4d_all as H.
  rewrite forallb_forall in H.
  apply String.eqb_eq, H, in_zrange. lia.
Qed.

Lemma four_digits_read_all :
  forallb (fun t => all_digits (four_digits t) && (digits_val 0 (four_digits t) =? t))
          (zrange 0 (Z.to_nat 10000)) = true.
Proof. vm_compute. reflexivity. Qed.

(** The four characters are decimal digits and read back as the time. *)
Lemma four_digits_read (t : Z) :
  0 <= t <= 9999 ->
  all_digits (four_digits t) = true /\ digits_val 0 (four_digits t) = t.
Proof.
  intros Ht. pose proof four_digits_read_all as H.
  rewrite forallb_forall in H.
  specialize (H t (in_zrange (Z.to_nat 10000) 0 t ltac:(lia))).
  apply andb_prop in H as [H1 H2]. split; [exact H1|now apply Z.eqb_eq].
Qed.

End TimeDigits.

(** ** The key builder *)

Section KeyBuilder.
Import PyText CleanLoad.

(** Positional call style: the key of five values that are all there. *)
Lemma build_flight_id_positional (d c o a t : pyval) :
  Py.is_none d = false -> Py.is_none c = false -> Py.is_none o = false ->
  Py.is_none a = false -> Py.is_none t = false ->
  build_flight_id (KeyVal d) c o a t =
  do crs_int <- Py.int_of_float t;
  Ok (date_text d +:+ "|" +:+ upper (strip (Py.str c)) +:+ "|"
      +:+ upper (strip (Py.str o)) +:+ "|" +:+ upper (strip (Py.str a))
      +:+ "-" +:+ format_0d 4 crs_int).
Proof.
  intros Hd Hc Ho Ha Ht. unfold build_flight_id, key_fields.
  rewrite Hd, Hc, Ho, Ha, Ht. simpl. destruct d; reflexivity.
Qed.

(** C2: for a date given as text or as a date object, three codes and a
    scheduled time between 0 and 2359, the key is
    [DATE|CARRIER|ORIGIN|DEST-TTTT] with the codes trimmed and in upper case
    and [TTTT] exactly four decimal digits that read back as the time, zeros
    included; the key of ("2020-01-01", "AA", "EWR", "JFK", 5) ends in
    [-0005]. *)
Theorem build_flight_id_format (d : pyval) (carrier origin dest : string) (t : Z) :
  is_date_input d = true -> 0 <= t <= 2359 ->
  build_flight_id (KeyVal d) (VStr carrier) (VStr origin) (VStr dest) (VInt t)
  = Ok (date_text d +:+ "|" +:+ upper (strip carrier) +:+ "|"
        +:+ upper (strip origin) +:+ "|" +:+ upper (strip dest)
        +:+ "-" +:+ four_digits t)
  /\ String.length (four_digits t) = 4%nat
  /\ all_digits (four_digits t) = true
  /\ digits_val 0 (four_digits t) = t
  /\ build_flight_id (KeyVal (VStr "2020-01-01")) (VStr "AA") (VStr "EWR")
       (VStr "JFK") (VInt 5) = Ok "2020-01-01|AA|EWR|JFK-0005".
Proof.
  intros Hd Ht. split.
  - rewrite build_flight_id_positional; try reflexivity.
    + rewrite int_of_float_exact by lia. simpl.
      rewrite format_4d by lia. reflexivity.
    + destruct d; try discriminate; reflexivity.
  - split; [reflexivity|].
    destruct (four_digits_read t ltac:(lia)) as [Hdig Hval].
    split; [exact Hdig|]. split; [exact Hval|]. vm_compute. reflexivity.
Qed.

Lemma build_flight_id_format_witness :
  build_flight_id (KeyVal (VDate 2020 1 1)) (VStr " aa ") (VStr "ewr") (VStr "Jfk") (VInt 930)
  = Ok "2020-01-01|AA|EWR|JFK-0930".
Proof.
  exact (proj1 (build_flight_id_format (VDate 2020 1 1) " aa " "ewr" "Jfk" 930
                  eq_refl ltac:(lia))).
Defined.

(** C7: letter case and surrounding white space in the carrier, origin and
    destination codes do not change what the key builder returns. *)
Theorem build_flight_id_code_variants (d t : pyval) (c1 c2 o1 o2 a1 a2 : string) :
  code_variant c1 c2 -> code_variant o1 o2 -> code_variant a1 a2 ->
  build_flight_id (KeyVal d) (VStr c1) (VStr o1) (VStr a1) t
  = build_flight_id (KeyVal d) (VStr c2) (VStr o2) (VStr a2) t.
Proof.
  intros Hc Ho Ha.
  apply code_variant_strip in Hc, Ho, Ha.
  unfold build_flight_id, key_fields. simpl.
  now rewrite Hc, Ho, Ha.
Qed.

Lemma code_variant_demo : code_variant " aa " "AA".
Proof.
  exists "aa", "AA". split; [|split].
  - exists " ", " ". repeat split.
  - exists "", "". repeat split.
  - reflexivity.
Defined.

Lemma code_variant_refl (s : string) : code_variant s s.
Proof.
  exists s, s. split; [|split].
  - exists "", "". split; [reflexivity|split; [reflexivity|]].
    induction s as [|c s IH]; [reflexivity|].
    change ("" +:+ String c s +:+ "") with (String c ("" +:+ s +:+ "")).
    now rewrite <- IH.
  - exists "", "". split; [reflexivity|split; [reflexivity|]].
    induction s as [|c s IH]; [reflexivity|].
    change ("" +:+ String c s +:+ "") with (String c ("" +:+ s +:+ "")).
    now rewrite <- IH.
  - induction s as [|c s IH]; [reflexivity|]. simpl.
    unfold same_letter. now rewrite Ascii.eqb_refl, IH.
Defined.

Lemma build_flight_id_code_variants_witness :
  build_flight_id (KeyVal (VStr "2020-01-01")) (VStr " aa ") (VStr "EWR") (VStr "JFK") (VInt 5)
  = build_flight_id (KeyVal (VStr "2020-01-01")) (VStr "AA") (VStr "EWR") (VStr "JFK") (VInt 5).
Proof.
  exact (build_flight_id_code_variants (VStr "2020-01-01") (VInt 5)
           " aa " "AA" "EWR" "EWR" "JFK" "JFK"
           code_variant_demo (code_variant_refl "EWR") (code_variant_refl "JFK")).
Defined.

End KeyBuilder.


(** ** The identity of a flight in the load path *)

Section LoadKey.
Import PyText CleanLoad.

Lemma append_nil_l (s : string) : "" +:+ s = s.
Proof. reflexivity. Qed.

Lemma append_cons (c : ascii) (s t : string) : String c s +:+ t = String c (s +:+ t).
Proof. reflexivity. Qed.

Lemma join_inj (a b x y : string) :
  no_underscore a = true -> no_underscore b = true ->
  a +:+ "_" +:+ x = b +:+ "_" +:+ y -> a = b /\ x = y.
Proof.
  unfold no_underscore. revert b.
  induction a as [|c a IH]; intros [|c' b] Ha Hb H;
    apply negb_true_iff in Ha, Hb; rewrite ?append_cons, ?append_nil_l in H;
    cbn [mem_char] in Ha, Hb.
  - injection H as ->. now split.
  - injection H as <- _. rewrite Ascii.eqb_refl in Hb. discriminate.
  - injection H as -> _. rewrite Ascii.eqb_refl in Ha. discriminate.
  - injection H as -> H. apply orb_false_elim in Ha as [_ Ha], Hb as [_ Hb].
    destruct (IH b) as [-> ->]; [now rewrite Ha|now rewrite Hb| |now split].
    now rewrite ?append_cons, ?append_nil_l.
Qed.

(** The five texts of a [flight_id], joined by underscores. *)
Lemma make_row_flight_id (rec : dict) (row : Row) :
  make_row rec = Some row ->
  flight_id row =
  match map Py.str (id_values rec) with
  | [a; b; c; d; e] => a +:+ "_" +:+ b +:+ "_" +:+ c +:+ "_" +:+ d +:+ "_" +:+ e
  | _ => ""
  end.
Proof.
  unfold make_row, id_values.
  generalize (pick rec fl_date_keys) (pick rec op_carrier_keys) (pick rec fl_num_keys)
    (pick rec origin_keys) (pick rec dest_keys).
  intros a b c d e H. destruct (Py.is_none d || Py.is_none e); [discriminate|].
  injection H as <-. reflexivity.
Qed.

(** C1, as the loader has it: the [flight_id] of a stored row is written from
    the resolved date, carrier, flight number, origin and destination, and
    from nothing else. Two records that agree on these five get the same
    [flight_id], whatever their scheduled times; two records whose five
    values are written without an underscore and differ in at least one
    written form get different ones. *)
Theorem load_flight_id_fields (rec1 rec2 : dict) (row1 row2 : Row) :
  make_row rec1 = Some row1 -> make_row rec2 = Some row2 ->
  (id_values rec1 = id_values rec2 -> flight_id row1 = flight_id row2)
  /\ (forallb no_underscore (map Py.str (id_values rec1)) = true ->
      forallb no_underscore (map Py.str (id_values rec2)) = true ->
      map Py.str (id_values rec1) <> map Py.str (id_values rec2) ->
      flight_id row1 <> flight_id row2).
Proof.
  intros H1 H2.
  rewrite (make_row_flight_id _ _ H1), (make_row_flight_id _ _ H2).
  split; [now intros ->|].
  unfold id_values.
  generalize (pick rec1 fl_date_keys) (pick rec1 op_carrier_keys) (pick rec1 fl_num_keys)
    (pick rec1 origin_keys) (pick rec1 dest_keys).
  generalize (pick rec2 fl_date_keys) (pick rec2 op_carrier_keys) (pick rec2 fl_num_keys)
    (pick rec2 origin_keys) (pick rec2 dest_keys).
  intros a2 b2 c2 d2 e2 a1 b1 c1 d1 e1. cbn [map forallb].
  intros U1 U2 Hne Heq. apply Hne.
  repeat match goal with
         | H : _ && _ = true |- _ => apply andb_prop in H as [? ?]
         end.
  apply join_inj in Heq as [-> Heq]; [|assumption|assumption].
  apply join_inj in Heq as [-> Heq]; [|assumption|assumption].
  apply join_inj in Heq as [-> Heq]; [|assumption|assumption].
  apply join_inj in Heq as [-> ->]; [|assumption|assumption].
  reflexivity.
Qed.

Lemma load_flight_id_fields_witness :
  exists row1 row2,
    make_row (flight_record 100 900) = Some row1
    /\ make_row (flight_record 100 1000) = Some row2
    /\ flight_id row1 = flight_id row2.
Proof.
  eexists. eexists.
  split; [vm_compute; reflexivity|]. split; [vm_compute; reflexivity|].
  refine (proj1 (load_flight_id_fields (flight_record 100 900) (flight_record 100 1000)
                   _ _ _ _) _); vm_compute; reflexivity.
Defined.

(** The flight identity of the data model, (date, carrier, origin,
    destination, scheduled time), is not what the loader keys on: the 09:00
    and the 10:00 flight AA100 share a [flight_id], and flights 100 and 200 at
    09:00 do not, although they agree on all five. *)
Lemma load_flight_id_not_five_tuple :
  exists rowA rowB rowC,
    make_row (flight_record 100 900) = Some rowA
    /\ make_row (flight_record 100 1000) = Some rowB
    /\ make_row (flight_record 200 900) = Some rowC
    /\ identity_values (flight_record 100 900) <> identity_values (flight_record 100 1000)
    /\ flight_id rowA = flight_id rowB
    /\ identity_values (flight_record 100 900) = identity_values (flight_record 200 900)
    /\ flight_id rowA <> flight_id rowC.
Proof.
  eexists. eexists. eexists.
  split; [vm_compute; reflexivity|]. split; [vm_compute; reflexivity|].
  split; [vm_compute; reflexivity|].
  split; [vm_compute; discriminate|]. split; [reflexivity|].
  split; [vm_compute; reflexivity|]. vm_compute. discriminate.
Qed.

(** C4: with the mapping call style a scheduled time of 0 is taken for a
    missing one, although all five fields are there: [0 or row.get(...)]
    drops it. The positional call style returns the key. *)
Theorem build_flight_id_midnight :
  (forall k, In k ["fl_date"; "carrier"; "origin"; "dest"; "crs_dep_time"] ->
     Py.is_none (dict_get midnight_row k) = false)
  /\ dict_get midnight_row "crs_dep_time" = VInt 0
  /\ build_flight_id (KeyRow midnight_row) VNone VNone VNone VNone = Raise missing_fields
  /\ build_flight_id (KeyVal (VStr "2020-01-01")) (VStr "AA") (VStr "EWR") (VStr "JFK")
       (VInt 0) = Ok "2020-01-01|AA|EWR|JFK-0000"
  /\ build_flight_id (KeyRow (<["crs_dep_time" := VInt 5]> midnight_row))
       VNone VNone VNone VNone = Ok "2020-01-01|AA|EWR|JFK-0005".
Proof.
  split.
  - intros k Hk. simpl in Hk.
    repeat (destruct Hk as [<-|Hk]; [vm_compute; reflexivity|]). contradiction.
  - repeat split; vm_compute; reflexivity.
Qed.

Lemma int_of_float_error (t : pyval) (e : exn) :
  Py.int_of_float t = Raise e -> e <> missing_fields.
Proof.
  unfold Py.int_of_float, Py.float, PyFloat.of_int, PyFloat.of_string, PyFloat.to_int.
  intros H He. subst e.
  destruct t as [|b|n|f|s|y m d]; simpl in H; try discriminate.
  - destruct b; discriminate.
  - destruct (binary_normalize _ _ n 0 false) as [| | |? ? ?]; simpl in H; discriminate.
  - destruct f as [| | |? ? ?]; simpl in H; discriminate.
  - destruct (PyFloat.drop_underscores _ _); [|discriminate].
    destruct (PyFloat.take_sign _) as [sg body].
    destruct (PyFloat.parse_decimal sg body) as [f|].
    + destruct f; simpl in H; discriminate.
    + destruct (PyFloat.parse_inf_nan sg body) as [f|]; [|discriminate].
      destruct f; simpl in H; discriminate.
Qed.

Lemma is_none_true (x : pyval) : Py.is_none x = true -> x = VNone.
Proof. destruct x; simpl; intros H; try discriminate; reflexivity. Qed.

(** With the positional call style the missing-field error is raised exactly
    when one of the five arguments is [None]. *)
Lemma build_flight_id_positional_missing (d c o a t : pyval) :
  build_flight_id (KeyVal d) c o a t = Raise missing_fields
  <-> (d = VNone \/ c = VNone \/ o = VNone \/ a = VNone \/ t = VNone).
Proof.
  split.
  - intros H.
    destruct (Py.is_none d) eqn:Ed; [left; now apply is_none_true|right].
    destruct (Py.is_none c) eqn:Ec; [left; now apply is_none_true|right].
    destruct (Py.is_none o) eqn:Eo; [left; now apply is_none_true|right].
    destruct (Py.is_none a) eqn:Ea; [left; now apply is_none_true|right].
    destruct (Py.is_none t) eqn:Et; [now apply is_none_true|exfalso].
    rewrite build_flight_id_positional in H by assumption.
    destruct (Py.int_of_float t) as [k|err] eqn:E; simpl in H; [discriminate|].
    injection H as ->. exact (int_of_float_error _ _ E eq_refl).
  - unfold build_flight_id, key_fields.
    intros [->|[->|[->|[->| ->]]]]; simpl; rewrite ?orb_true_r; reflexivity.
Qed.

End LoadKey.

(** ** The coercions *)

Section Coercions.
Import CleanLoad.

Lemma missing_is_isna (x : pyval) :
  Py.is_none x || (Py.is_float x && Py.isna x) = Py.isna x.
Proof. destruct x; reflexivity. Qed.

Lemma of_int_exact (n : Z) :
  Z.abs n <= 2 ^ 53 ->
  exists f, PyFloat.of_int n = Ok f /\ PyFloat.to_int f = Ok n.
Proof.
  intros Hn. pose proof (int_of_float_exact n Hn) as H.
  unfold Py.int_of_float, Py.float in H.
  destruct (PyFloat.of_int n) as [f|e]; [|discriminate]. eauto.
Qed.

(** The code changes an [int] that does not fit a double: 2^53 + 1 comes
    back as 2^53. *)
Lemma to_int_rounds_large_int :
  to_int (VInt 9007199254740993) = Some 9007199254740992
  /\ to_int (VInt 9007199254740993) <> Some 9007199254740993.
Proof. split; vm_compute; [reflexivity|discriminate]. Qed.

(** C9, as the code has it: [to_int] and [to_float] always return, a number
    or [None]. A missing input ([None] or NaN) gives [None]; any other input
    goes through [float()], then [int()] for [to_int], and every failure
    there gives [None], never zero. An [int] of at most 53 bits comes back
    from [to_int] as it is and from [to_float] as the double of the same
    value; a [float] that is not NaN comes back from [to_float] as it is and
    from [to_int] cut toward zero. *)
Theorem coercions_total :
  (forall x, Py.isna x = true -> to_int x = None /\ to_float x = None)
  /\ (forall x, Py.isna x = false ->
        to_int x = try_or_none (do f <- Py.float x; PyFloat.to_int f)
        /\ to_float x = try_or_none (Py.float x))
  /\ (forall s e, PyFloat.of_string s = Raise e ->
        to_int (VStr s) = None /\ to_float (VStr s) = None)
  /\ (forall n, Z.abs n <= 2 ^ 53 ->
        to_int (VInt n) = Some n
        /\ exists f, to_float (VInt n) = Some f /\ PyFloat.to_int f = Ok n)
  /\ (forall f, PyFloat.is_nan f = false ->
        to_float (VFloat f) = Some f
        /\ to_int (VFloat f) = try_or_none (PyFloat.to_int f))
  /\ to_int (VStr "12.7") = Some 12
  /\ to_int (VStr " 930 ") = Some 930
  /\ to_int (VStr "abc") = None
  /\ to_int (VStr "inf") = None
  /\ to_int (VFloat (S754_finite true 8782019273372467 (-51))) = Some (-3)
  /\ to_float (VStr "1.5") = Some (S754_finite false 6755399441055744 (-52))
  /\ to_float (VStr "") = None
  /\ to_float (VInt 7) = Some (S754_finite false 7881299347898368 (-50)).
Proof.
  split.
  { intros x Hx. unfold to_int, to_float. now rewrite missing_is_isna, Hx. }
  split.
  { intros x Hx. unfold to_int, to_float. now rewrite missing_is_isna, Hx. }
  split.
  { intros s e H. unfold to_int, to_float, Py.int_of_float. simpl. now rewrite H. }
  split.
  { intros n Hn. unfold to_int, to_float. simpl.
    rewrite (int_of_float_exact n Hn).
    destruct (of_int_exact n Hn) as (f & Hf & Ht). rewrite Hf. simpl. eauto. }
  split.
  { intros f Hf. unfold to_int, to_float, Py.int_of_float. simpl. now rewrite Hf. }
  repeat split; vm_compute; reflexivity.
Qed.

Lemma coercions_total_witness :
  to_int (VInt 2359) = Some 2359
  /\ exists f, to_float (VInt 2359) = Some f /\ PyFloat.to_int f = Ok 2359.
Proof.
  refine (proj1 (proj2 (proj2 (proj2 coercions_total))) 2359 _).
  simpl. lia.
Defined.

End Coercions.

(** ** The store: upserts *)

Section Store.
Import CleanLoad.

Lemma row_dict_dom (r : Row) :
  dom (row_dict r) =
  ({["flight_id"]} ∪ ({["fl_date"]} ∪ ({["op_carrier"]} ∪ ({["op_carrier_fl_num"]}
   ∪ ({["origin"]} ∪ ({["dest"]} ∪ ({["crs_dep_time"]} ∪ ({["dep_time"]}
   ∪ ({["dep_delay"]} ∪ ({["arr_delay"]} ∪ ({["cancelled"]} ∪ ({["diverted"]} ∪ ∅))))))))))))
  :> gset string.
Proof. unfold row_dict. now rewrite !dom_insert_L, dom_empty_L. Qed.

Lemma row_dict_same_keys (r r' : Row) (k : string) :
  row_dict r !! k = None -> row_dict r' !! k = None.
Proof.
  rewrite <- !not_elem_of_dom, !row_dict_dom. tauto.
Qed.

Lemma row_dict_flight_id (r : Row) :
  row_dict r !! "flight_id" = Some (VStr (flight_id r)).
Proof. unfold row_dict. apply lookup_insert_eq. Qed.

(** A later row of the same flight overrides an earlier one entirely. *)
Lemma update_node_absorb (r r' : Row) (n : Node) :
  update_node r (update_node r' n) = update_node r n.
Proof.
  unfold update_node. simpl. f_equal.
  - now rewrite <- (assoc_L (∪)), (idemp_L (∪)).
  - apply map_eq. intros k. rewrite !lookup_merge.
    destruct (row_dict r !! k) as [v|] eqn:E.
    + destruct (props n !! k) as [a|], (row_dict r' !! k) as [[]|], v; reflexivity.
    + rewrite (row_dict_same_keys r r' k E).
      destruct (props n !! k); reflexivity.
Qed.

Lemma run_upsert_cons (s : store) (r : Row) (batch : list Row) :
  run_upsert s (r :: batch) = run_upsert (upsert_row s r) batch.
Proof. reflexivity. Qed.

Lemma run_upsert_app (s : store) (b1 b2 : list Row) :
  run_upsert s (b1 ++ b2) = run_upsert (run_upsert s b1) b2.
Proof. apply fold_left_app. Qed.

(** What a batch leaves under a key: the last row for that flight, laid
    over the node that was there or over a fresh one. *)
Lemma run_upsert_lookup (batch : list Row) (s : store) (fid : string) :
  run_upsert s batch !! fid =
  match last_with fid batch with
  | Some r => Some (update_node r (default (new_node fid) (s !! fid)))
  | None => s !! fid
  end.
Proof.
  revert s. induction batch as [|r batch IH]; intros s; [reflexivity|].
  rewrite run_upsert_cons, IH. simpl. unfold upsert_row.
  destruct (String.eqb_spec (flight_id r) fid) as [->|Hne].
  - rewrite lookup_insert_eq. simpl.
    destruct (last_with fid batch); [|reflexivity].
    now rewrite update_node_absorb.
  - rewrite lookup_insert_ne by assumption.
    destruct (last_with fid batch); reflexivity.
Qed.

Lemma last_with_id (batch : list Row) (fid : string) (r : Row) :
  last_with fid batch = Some r -> flight_id r = fid.
Proof.
  induction batch as [|r0 batch IH]; simpl; [discriminate|].
  destruct (last_with fid batch); [exact IH|].
  destruct (String.eqb_spec (flight_id r0) fid); [|discriminate].
  now intros [= <-].
Qed.

Lemma last_with_in (batch : list Row) (r : Row) :
  In r batch -> exists r', last_with (flight_id r) batch = Some r'.
Proof.
  induction batch as [|r0 batch IH]; simpl; [contradiction|].
  intros [->|Hin].
  - destruct (last_with (flight_id r) batch); [eauto|].
    rewrite String.eqb_refl. eauto.
  - destruct (IH Hin) as [r' ->]. eauto.
Qed.

End Store.

(** ** The loader *)

Section Loader.
Import CleanLoad.

Lemma make_row_none (rec : dict) : make_row rec = None <-> excluded rec = true.
Proof.
  unfold make_row, excluded.
  destruct (Py.is_none (pick rec origin_keys) || Py.is_none (pick rec dest_keys));
    split; intros H; try reflexivity; discriminate.
Qed.

Lemma retained_length (recs : list dict) :
  length (made_rows recs)
  = length (List.filter (fun rec => negb (excluded rec)) recs).
Proof.
  induction recs as [|rec recs IH]; [reflexivity|]. simpl.
  destruct (make_row rec) eqn:E.
  - destruct (excluded rec) eqn:X; [apply make_row_none in X; congruence|].
    simpl. now rewrite IH.
  - apply make_row_none in E. now rewrite E.
Qed.

Lemma made_rows_app (l1 l2 : list dict) :
  made_rows (l1 ++ l2) = made_rows l1 ++ made_rows l2.
Proof.
  induction l1 as [|rec l1 IH]; [reflexivity|]. simpl.
  destruct (make_row rec); simpl; now rewrite IH.
Qed.

(** The row loop: what is written so far, followed by what is still in the
    accumulator, is the rows made so far. *)
Lemma row_loop (batch_size : Z) (recs : list dict) (st : Loader) :
  let st' := fold_left (row_step batch_size) recs st in
  run_upsert (db st') (rows st') = run_upsert (db st) (rows st ++ made_rows recs)
  /\ total_inserted st' + Z.of_nat (length (rows st'))
     = total_inserted st + Z.of_nat (length (rows st ++ made_rows recs)).
Proof.
  revert st. induction recs as [|rec recs IH]; intros st; simpl.
  - now rewrite app_nil_r.
  - destruct (IH (row_step batch_size st rec)) as [Hdb Htot].
    rewrite Hdb, Htot. unfold row_step.
    destruct (make_row rec) as [row|]; [|split; reflexivity].
    destruct (batch_size <=? _); simpl.
    + rewrite <- run_upsert_app, <- app_assoc. simpl.
      split; [reflexivity|]. rewrite !length_app. simpl. lia.
    + rewrite <- app_assoc. split; reflexivity.
Qed.

Lemma chunk_step_spec (batch_size : Z) (st : Loader) (chunk : DataFrame) :
  let made := made_rows (iterrows (norm_cols chunk)) in
  db (chunk_step batch_size st chunk) = run_upsert (db st) made
  /\ total_inserted (chunk_step batch_size st chunk)
     = total_inserted st + Z.of_nat (length made).
Proof.
  unfold chunk_step.
  set (st0 := {| db := db st; total_inserted := total_inserted st; rows := [] |}).
  pose proof (row_loop batch_size (iterrows (norm_cols chunk)) st0) as [Hdb Htot].
  set (st1 := fold_left (row_step batch_size) (iterrows (norm_cols chunk)) st0) in *.
  change (rows st0 ++ made_rows (iterrows (norm_cols chunk)))
    with (made_rows (iterrows (norm_cols chunk))) in Hdb, Htot.
  change (db st0) with (db st) in Hdb.
  change (total_inserted st0) with (total_inserted st) in Htot.
  destruct (rows st1) as [|r l] eqn:E.
  - rewrite <- Hdb, <- Htot. split; [reflexivity|]. simpl. lia.
  - unfold write_batch. cbn [db total_inserted]. rewrite E, Hdb.
    split; [reflexivity|exact Htot].
Qed.

Lemma chunk_loop (batch_size : Z) (chunks : list DataFrame) (st : Loader) :
  let st' := fold_left (chunk_step batch_size) chunks st in
  db st' = run_upsert (db st) (made_rows (records chunks))
  /\ total_inserted st'
     = total_inserted st + Z.of_nat (length (made_rows (records chunks))).
Proof.
  revert st. induction chunks as [|chunk chunks IH]; intros st; simpl.
  - split; [reflexivity|lia].
  - destruct (IH (chunk_step batch_size st chunk)) as [Hdb Htot].
    destruct (chunk_step_spec batch_size st chunk) as [Hdb1 Htot1].
    rewrite Hdb, Htot, Hdb1, Htot1.
    unfold records in *. simpl. rewrite made_rows_app, run_upsert_app, length_app.
    split; [reflexivity|lia].
Qed.

(** [main] writes the rows made of the records that are not excluded, in
    reading order, and reports how many they are, whatever the batch size. *)
Lemma main_spec (chunks : list DataFrame) (batch_size : Z) (s : store) :
  main chunks batch_size s
  = (run_upsert s (made_rows (records chunks)),
     Z.of_nat (length (made_rows (records chunks)))).
Proof.
  unfold main.
  destruct (chunk_loop batch_size chunks {| db := s; total_inserted := 0; rows := [] |})
    as [Hdb Htot].
  now rewrite Hdb, Htot.
Qed.

(** C5: a record without origin or destination makes no row and raises
    nothing; the total that [main] reports is the number of records that are
    not excluded, and the store receives exactly their rows; three rows of
    which one has no destination give a total of 2. *)
Theorem main_total_counts_retained (chunks : list DataFrame) (batch_size : Z) (s : store) :
  (forall rec : dict, excluded rec = true <-> make_row rec = None)
  /\ snd (main chunks batch_size s)
     = Z.of_nat (length (List.filter (fun rec => negb (excluded rec)) (records chunks)))
  /\ fst (main chunks batch_size s) = run_upsert s (made_rows (records chunks))
  /\ snd (main [three_rows] 2000 ∅) = 2.
Proof.
  split; [intros rec; symmetry; apply make_row_none|].
  rewrite main_spec. simpl.
  split; [now rewrite retained_length|].
  split; [reflexivity|]. vm_compute. reflexivity.
Qed.

(** C6: sending a batch twice leaves the store as sending it once does:
    the same nodes with the same labels and properties, hence as many; so
    does loading the same input twice. *)
Theorem run_upsert_idempotent (s : store) (batch : list Row)
    (chunks : list DataFrame) (batch_size : Z) :
  run_upsert (run_upsert s batch) batch = run_upsert s batch
  /\ size (run_upsert (run_upsert s batch) batch) = size (run_upsert s batch)
  /\ fst (main chunks batch_size (fst (main chunks batch_size s)))
     = fst (main chunks batch_size s).
Proof.
  assert (forall b, run_upsert (run_upsert s b) b = run_upsert s b) as E.
  { intros b. apply map_eq. intros fid.
    rewrite (run_upsert_lookup b (run_upsert s b)), (run_upsert_lookup b s).
    destruct (last_with fid b); [|reflexivity].
    simpl. now rewrite update_node_absorb. }
  split; [apply E|]. split; [now rewrite E|].
  rewrite !main_spec. simpl. apply E.
Qed.

End Loader.

Section Unchecked.
Import CleanLoad.

Lemma made_rows_in (recs : list dict) (rec : dict) (row : Row) :
  In rec recs -> make_row rec = Some row -> In row (made_rows recs).
Proof.
  induction recs as [|rec0 recs IH]; simpl; [contradiction|].
  intros [->|Hin] Hrow.
  - rewrite Hrow. now left.
  - destruct (make_row rec0); [right|]; now apply IH.
Qed.

(** A row that was sent is in the store afterwards, under its
    [flight_id], labelled [Flight]. *)
Lemma run_upsert_stores (s : store) (batch : list Row) (row : Row) :
  In row batch ->
  exists node, run_upsert s batch !! flight_id row = Some node
               /\ "Flight" ∈ labels node
               /\ props node !! "flight_id" = Some (VStr (flight_id row)).
Proof.
  intros Hin. destruct (last_with_in batch row Hin) as [r' Hr'].
  rewrite run_upsert_lookup, Hr'. eexists. split; [reflexivity|].
  unfold update_node. simpl. split; [set_solver|].
  rewrite lookup_merge, row_dict_flight_id, (last_with_id _ _ _ Hr').
  destruct (props _ !! "flight_id"); reflexivity.
Qed.

(** C10: the loader checks nothing but origin and destination: every
    record that has both is written to the store, whatever its other fields
    hold. A scheduled time of 2400, which the CleanFlight validator refuses,
    is stored as it is, and a record without date, carrier and flight number
    is stored under a [flight_id] that spells [None] three times. *)
Theorem load_skips_validation (chunks : list DataFrame) (batch_size : Z) (s : store) :
  (forall rec : dict, In rec (records chunks) -> excluded rec = false ->
     exists row node,
       make_row rec = Some row
       /\ fst (main chunks batch_size s) !! flight_id row = Some node
       /\ "Flight" ∈ labels node
       /\ props node !! "flight_id" = Some (VStr (flight_id row)))
  /\ Model.validate_crs_dep_time (VInt 2400) = Raise Model.out_of_range
  /\ snd (main [unchecked_rows] 2000 ∅) = 2
  /\ (props <$> fst (main [unchecked_rows] 2000 ∅) !! "2020-01-01_AA_100_EWR_JFK")
       ≫= (fun p => p !! "crs_dep_time") = Some (VInt 2400)
  /\ (props <$> fst (main [unchecked_rows] 2000 ∅) !! "None_None_None_EWR_JFK")
       ≫= (fun p => p !! "fl_date") = Some (VStr "None").
Proof.
  split.
  - intros rec Hin Hex.
    destruct (make_row rec) as [row|] eqn:Hrow;
      [|apply make_row_none in Hrow; congruence].
    rewrite main_spec. simpl.
    destruct (run_upsert_stores s (made_rows (records chunks)) row
                (made_rows_in _ _ _ Hin Hrow)) as (node & Hn & Hl & Hp).
    exists row, node. auto.
  - repeat split; vm_compute; reflexivity.
Qed.

Lemma load_skips_validation_witness :
  exists row node,
    make_row (to_dict (columns (norm_cols unchecked_rows))
                [VStr "2020-01-01"; VStr "AA"; VInt 100; VStr "EWR"; VStr "JFK"; VInt 2400])
    = Some row
    /\ fst (main [unchecked_rows] 1 ∅) !! flight_id row = Some node
    /\ "Flight" ∈ labels node
    /\ props node !! "flight_id" = Some (VStr (flight_id row)).
Proof.
  refine (proj1 (load_skips_validation [unchecked_rows] 1 ∅) _ _ _).
  - left. reflexivity.
  - vm_compute. reflexivity.
Defined.

End Unchecked.

(** ** The CleanFlight validators *)

Section Validators.
Import PyText Model.

Lemma validate_time_ok (v : Z) :
  valid_hhmm v -> validate_crs_dep_time (VInt v) = Ok (VInt v).
Proof.
  intros [Hr Hm]. unfold validate_crs_dep_time. simpl.
  destruct (Z.ltb_spec v 0); [lia|]. destruct (Z.ltb_spec 2359 v); [lia|]. simpl.
  destruct (Z.leb_spec 60 (v mod 100)); [lia|reflexivity].
Qed.

Lemma validate_time_raises (v : Z) :
  ~ valid_hhmm v ->
  validate_crs_dep_time (VInt v) = Raise out_of_range
  \/ validate_crs_dep_time (VInt v) = Raise bad_minutes.
Proof.
  intros Hn. unfold validate_crs_dep_time. simpl.
  destruct (Z.ltb_spec v 0); [now left|]. destruct (Z.ltb_spec 2359 v); [now left|]. simpl.
  destruct (Z.leb_spec 60 (v mod 100)); [now right|].
  exfalso. apply Hn. split; lia.
Qed.

Lemma valid_hhmm_dec (v : Z) : valid_hhmm v \/ ~ valid_hhmm v.
Proof.
  unfold valid_hhmm.
  destruct (Z.le_gt_cases 0 v), (Z.le_gt_cases v 2359),
    (Z.lt_ge_cases (v mod 100) 60); try (right; lia). left. lia.
Qed.

Lemma validate_time_iff (v : Z) :
  validate_crs_dep_time (VInt v) = Ok (VInt v) <-> valid_hhmm v.
Proof.
  split; [|apply validate_time_ok].
  intros H. destruct (valid_hhmm_dec v) as [|Hn]; [assumption|].
  destruct (validate_time_raises v Hn) as [E|E]; rewrite E in H; discriminate.
Qed.

Lemma normalize_normal_code (s : string) :
  normal_code s = true -> normalize_codes (Some s) = Ok s.
Proof.
  intros H. destruct (normal_code_fixed _ H) as [E N].
  unfold normalize_codes. rewrite E. destruct s; [discriminate|reflexivity].
Qed.

Lemma validate_normal_codes (c : CleanFlight) :
  normal_code (carrier c) = true -> normal_code (origin c) = true ->
  normal_code (dest c) = true ->
  validate c =
  do t <- validate_crs_dep_time (VInt (crs_dep_time c));
  match Py.as_int t with
  | Some n =>
      Ok {| flight_id := flight_id c; fl_date := fl_date c;
            carrier := carrier c; origin := origin c; dest := dest c;
            crs_dep_time := n;
            dep_delay := dep_delay c; arr_delay := arr_delay c;
            cancelled := cancelled c; diverted := diverted c;
            distance := distance c |}
  | None => Raise TypeError
  end.
Proof.
  intros H1 H2 H3. unfold validate.
  now rewrite !normalize_normal_code.
Qed.

(** C3: the time validator accepts an integer exactly when it lies in
    [0, 2359] and its last two digits are below 60, and raises otherwise;
    2359 passes, 2360, 2400 and -1 are refused; a [CleanFlight] whose codes are
    in order is built exactly when its time passes. *)
Theorem validate_crs_dep_time_boundary :
  (forall v : Z, validate_crs_dep_time (VInt v) = Ok (VInt v) <-> valid_hhmm v)
  /\ (forall v : Z, ~ valid_hhmm v -> exists e, validate_crs_dep_time (VInt v) = Raise e)
  /\ (forall x : pyval, Py.as_int x = None -> validate_crs_dep_time x = Raise not_an_integer)
  /\ validate_crs_dep_time (VInt 2359) = Ok (VInt 2359)
  /\ validate_crs_dep_time (VInt 2360) = Raise out_of_range
  /\ validate_crs_dep_time (VInt 2400) = Raise out_of_range
  /\ validate_crs_dep_time (VInt (-1)) = Raise out_of_range
  /\ validate_crs_dep_time (VInt 1260) = Raise bad_minutes
  /\ (forall c : CleanFlight,
        normal_code (carrier c) = true -> normal_code (origin c) = true ->
        normal_code (dest c) = true ->
        (exists c', validate c = Ok c') <-> valid_hhmm (crs_dep_time c)).
Proof.
  split; [exact validate_time_iff|].
  split; [intros v Hn; destruct (validate_time_raises v Hn) as [E|E]; eauto|].
  split; [intros x Hx; unfold validate_crs_dep_time; now rewrite Hx|].
  do 5 (split; [vm_compute; reflexivity|]).
  intros c H1 H2 H3. rewrite (validate_normal_codes c H1 H2 H3). split.
  - intros [c' Hc']. destruct (valid_hhmm_dec (crs_dep_time c)) as [|Hn]; [assumption|].
    destruct (validate_time_raises _ Hn) as [E|E]; rewrite E in Hc'; discriminate.
  - intros Hv. rewrite (validate_time_ok _ Hv). simpl. eauto.
Qed.

(** Whatever validation returns is in normal form. *)
Lemma normalize_codes_normal (s s' : string) :
  normalize_codes (Some s) = Ok s' -> normal_code s' = true.
Proof.
  unfold normalize_codes. intros H.
  destruct (upper (strip s)) as [|a u] eqn:E; [discriminate|].
  simpl in H. injection H as <-. rewrite <- E.
  apply normal_code_strip_upper. now rewrite E.
Qed.

Lemma validate_normalizes (c c' : CleanFlight) :
  validate c = Ok c' -> normalized c'.
Proof.
  unfold validate. intros H.
  destruct (normalize_codes (Some (carrier c))) as [k1|] eqn:E1; [|discriminate].
  destruct (normalize_codes (Some (origin c))) as [k2|] eqn:E2; [|discriminate].
  destruct (normalize_codes (Some (dest c))) as [k3|] eqn:E3; [|discriminate].
  simpl in H.
  destruct (valid_hhmm_dec (crs_dep_time c)) as [Hv|Hn].
  - rewrite (validate_time_ok _ Hv) in H. simpl in H. injection H as <-.
    unfold normalized. simpl.
    split; [exact (normalize_codes_normal _ _ E1)|].
    split; [exact (normalize_codes_normal _ _ E2)|].
    split; [exact (normalize_codes_normal _ _ E3)|exact Hv].
  - destruct (validate_time_raises _ Hn) as [E|E]; rewrite E in H; discriminate.
Qed.

(** C8: validation is idempotent. A record in normal form (codes not
    empty, in upper case, without white space around them; a valid time)
    passes validation unchanged, field for field; and what validation returns
    is in normal form, so validating it again returns the same record. *)
Theorem validate_idempotent (c c0 : CleanFlight) :
  (normalized c -> validate c = Ok c)
  /\ (validate c0 = Ok c -> normalized c /\ validate c = Ok c).
Proof.
  assert (normalized c -> validate c = Ok c) as Hfix.
  { intros (H1 & H2 & H3 & Ht).
    rewrite (validate_normal_codes c H1 H2 H3), (validate_time_ok _ Ht).
    destruct c; reflexivity. }
  split; [exact Hfix|].
  intros H. pose proof (validate_normalizes c0 c H) as Hn.
  split; [exact Hn|exact (Hfix Hn)].
Qed.

Lemma validate_idempotent_witness :
  normalized sample_flight /\ validate sample_flight = Ok sample_flight.
Proof.
  assert (normalized sample_flight) as H.
  { unfold normalized, valid_hhmm. simpl. repeat split; try reflexivity; lia. }
  split; [exact H|].
  exact (proj1 (validate_idempotent sample_flight sample_flight) H).
Defined.

Lemma validate_crs_dep_time_boundary_witness :
  exists e, validate_crs_dep_time (VInt 2400) = Raise e.
Proof.
  refine (proj1 (proj2 validate_crs_dep_time_boundary) 2400 _).
  unfold valid_hhmm. lia.
Defined.

End Validators.

(* ===================================================================== *)
(** * Further properties of the code *)
(* ===================================================================== *)

(** ** Alias resolution and column names *)

Section Aliases.
Import PyText CleanLoad.

Lemma usable_meaning (v : pyval) :
  usable v = true ->
  v <> VNone /\ v <> VFloat S754_nan /\ strip (Py.str v) <> "".
Proof.
  unfold usable, Py.notna. intros H. apply andb_prop in H as [Hn He].
  apply negb_true_iff in Hn, He.
  repeat split; intros E; subst; try discriminate.
  rewrite E in He. discriminate.
Qed.

(** X1: [pick] returns the value under the first key, in the order given,
    whose cell is there and usable (not [None], not NaN, not blank once
    written as text); keys before it that are absent or unusable are passed
    over. It returns [None] exactly when no key has a usable value, so what it
    returns is never NaN and never blank. *)
Theorem pick_first_usable (row : dict) (keys : list string) :
  (forall pre k post v,
     keys = pre ++ k :: post ->
     (forall k' v', In k' pre -> row !! k' = Some v' -> usable v' = false) ->
     row !! k = Some v -> usable v = true ->
     pick row keys = v)
  /\ (pick row keys = VNone <->
      forall k v, In k keys -> row !! k = Some v -> usable v = false)
  /\ (pick row keys <> VNone ->
      usable (pick row keys) = true
      /\ pick row keys <> VFloat S754_nan
      /\ strip (Py.str (pick row keys)) <> ""
      /\ exists k, In k keys /\ row !! k = Some (pick row keys)).
Proof.
  split; [|split].
  - intros pre k post v -> Hpre Hk Hv.
    induction pre as [|k0 pre IH]; simpl.
    + now rewrite Hk, Hv.
    + destruct (row !! k0) as [v0|] eqn:E0.
      * rewrite (Hpre k0 v0 (or_introl eq_refl) E0).
        apply IH. intros k' v' Hin. apply Hpre. now right.
      * apply IH. intros k' v' Hin. apply Hpre. now right.
  - induction keys as [|k0 keys IH]; simpl.
    + split; [intros _ k v []|reflexivity].
    + destruct (row !! k0) as [v0|] eqn:E0; [destruct (usable v0) eqn:U0|].
      * split.
        -- intros ->. discriminate.
        -- intros H. specialize (H k0 v0 (or_introl eq_refl) E0). congruence.
      * rewrite IH. split.
        -- intros H k v [<-|Hin] Hk; [congruence|eauto].
        -- intros H k v Hin. apply H. now right.
      * rewrite IH. split.
        -- intros H k v [<-|Hin] Hk; [congruence|eauto].
        -- intros H k v Hin. apply H. now right.
  - induction keys as [|k0 keys IH]; simpl; [congruence|].
    destruct (row !! k0) as [v0|] eqn:E0; [destruct (usable v0) eqn:U0|].
    + intros _. destruct (usable_meaning v0 U0) as (_ & Hnan & Hblank).
      repeat split; try assumption. exists k0. split; [now left|assumption].
    + intros H. destruct (IH H) as (U & Hnan & Hblank & k & Hin & Hk).
      repeat split; try assumption. exists k. split; [now right|assumption].
    + intros H. destruct (IH H) as (U & Hnan & Hblank & k & Hin & Hk).
      repeat split; try assumption. exists k. split; [now right|assumption].
Qed.

Lemma pick_first_usable_witness :
  pick (flight_record 100 900) origin_keys = VStr "EWR".
Proof.
  refine (proj1 (pick_first_usable (flight_record 100 900) origin_keys)
            [] "origin" ["origin_airport"; "orig"] (VStr "EWR") eq_refl _ _ _).
  - intros k' v' [].
  - vm_compute. reflexivity.
  - vm_compute. reflexivity.
Defined.

End Aliases.

Section Headers.
Import PyText CleanLoad.

Lemma lower_char_space (c : ascii) : is_space (lower_char c) = is_space c.
Proof. destruct c as [[] [] [] [] [] [] [] []]; reflexivity. Qed.

Lemma lower_char_idem (c : ascii) : lower_char (lower_char c) = lower_char c.
Proof. destruct c as [[] [] [] [] [] [] [] []]; reflexivity. Qed.

Lemma lower_upper_char (c : ascii) : lower_char (upper_char c) = lower_char c.
Proof. destruct c as [[] [] [] [] [] [] [] []]; reflexivity. Qed.

Lemma same_letter_lower (c c' : ascii) :
  same_letter c c' = true -> lower_char c = lower_char c'.
Proof.
  intros H. apply same_letter_upper in H.
  rewrite <- (lower_upper_char c), H. apply lower_upper_char.
Qed.

Lemma case_variant_lower (s t : string) :
  case_variant s t = true -> lower s = lower t.
Proof.
  revert t. induction s as [|c s IH]; intros [|c' t] H; simpl in *;
    try reflexivity; try discriminate.
  apply andb_prop in H as [Hc Hs].
  now rewrite (same_letter_lower _ _ Hc), (IH _ Hs).
Qed.

Lemma code_variant_lower (x y : string) :
  code_variant x y -> lower (strip x) = lower (strip y).
Proof.
  intros (cx & cy & Hx & Hy & Hv).
  rewrite (strip_padded _ _ Hx), (strip_padded _ _ Hy).
  apply case_variant_lower, case_variant_rstrip, case_variant_lstrip, Hv.
Qed.

Lemma lower_idem (s : string) : lower (lower s) = lower s.
Proof. induction s as [|c s IH]; simpl; [reflexivity|]. now rewrite lower_char_idem, IH. Qed.

Lemma lstrip_lower (s : string) :
  lstrip_by is_space (lower s) = lower (lstrip_by is_space s).
Proof.
  induction s as [|c s IH]; simpl; [reflexivity|].
  rewrite lower_char_space. destruct (is_space c); [exact IH|reflexivity].
Qed.

Lemma rstrip_lower (s : string) :
  rstrip_by is_space (lower s) = lower (rstrip_by is_space s).
Proof.
  induction s as [|c s IH]; simpl; [reflexivity|].
  rewrite lower_char_space, IH.
  destruct (rstrip_by is_space s); simpl; destruct (is_space c); reflexivity.
Qed.

Lemma strip_lower (s : string) : strip (lower s) = lower (strip s).
Proof. unfold strip, strip_by. now rewrite lstrip_lower, rstrip_lower. Qed.

Lemma strip_idem (s : string) : strip (strip s) = strip s.
Proof.
  unfold strip, strip_by.
  rewrite (lstrip_head (rstrip_by is_space (lstrip_by is_space s))).
  - apply rstrip_last, last_space_rstrip.
  - apply head_space_rstrip, head_space_lstrip.
Qed.

Lemma normal_name_idem (c : string) : lower (strip (lower (strip c))) = lower (strip c).
Proof. now rewrite strip_lower, strip_idem, lower_idem. Qed.

Lemma norm_cols_same_header (df df' : DataFrame) :
  same_header df df' -> norm_cols df = norm_cols df'.
Proof.
  intros [Hc Hd]. unfold norm_cols. rewrite Hd. f_equal.
  induction Hc as [|x y xs ys Hxy _ IH]; simpl; [reflexivity|].
  now rewrite (code_variant_lower _ _ Hxy), IH.
Qed.

Lemma records_same_header (chunks chunks' : list DataFrame) :
  Forall2 same_header chunks chunks' -> records chunks = records chunks'.
Proof.
  unfold records. induction 1 as [|df df' l l' H _ IH]; simpl; [reflexivity|].
  now rewrite (norm_cols_same_header _ _ H), IH.
Qed.

(** X2: column names are matched without regard to letter case and to
    white space around them: normalising the header twice is normalising it
    once, and two inputs with the same cells whose headers differ only that
    way are loaded to the same store with the same total. *)
Theorem main_header_insensitive (chunks chunks' : list DataFrame) (batch_size : Z)
    (s : store) :
  Forall2 same_header chunks chunks' ->
  main chunks batch_size s = main chunks' batch_size s
  /\ Forall (fun df => norm_cols (norm_cols df) = norm_cols df) chunks.
Proof.
  intros H. split.
  - now rewrite !main_spec, (records_same_header _ _ H).
  - apply Forall_forall. intros df _. unfold norm_cols. simpl. f_equal.
    rewrite map_map. apply map_ext. intros c. apply normal_name_idem.
Qed.

End Headers.

Section HeaderWitness.
Import PyText CleanLoad.

Lemma append_empty_r (s : string) : s +:+ "" = s.
Proof.
  induction s as [|c s IH]; [reflexivity|].
  change (String c s +:+ "") with (String c (s +:+ "")). now rewrite IH.
Qed.

Lemma case_variant_is_code_variant (x y : string) :
  case_variant x y = true -> code_variant x y.
Proof.
  intros H. exists x, y. split; [|split; [|exact H]].
  - exists "", "". split; [reflexivity|split; [reflexivity|]].
    change ("" +:+ x +:+ "") with (x +:+ ""). now rewrite append_empty_r.
  - exists "", "". split; [reflexivity|split; [reflexivity|]].
    change ("" +:+ y +:+ "") with (y +:+ ""). now rewrite append_empty_r.
Qed.

Lemma main_header_insensitive_witness :
  main [three_rows] 2000 ∅
  = main [{| columns := map lower (columns three_rows); data := data three_rows |}] 2000 ∅.
Proof.
  refine (proj1 (main_header_insensitive [three_rows] [_] 2000 ∅ _)).
  constructor; [|constructor]. split; [|reflexivity].
  simpl. repeat constructor; apply case_variant_is_code_variant; reflexivity.
Defined.

End HeaderWitness.

(** ** The loader: chunks, batches and the store *)

Section LoaderMore.
Import PyText CleanLoad.




(** X5: within a chunk the loader writes full batches only. With a batch
    size of at least 1 and an accumulator below it, after any run of records
    the total has grown by a whole number of batches, as many as fit into the
    rows gathered so far, and the accumulator holds the remainder, fewer than
    [batch_size] rows, for the write at the end of the chunk. *)
Theorem row_loop_full_batches (batch_size : Z) (recs : list dict) (st : Loader) :
  1 <= batch_size ->
  Z.of_nat (length (rows st)) < batch_size ->
  let n := Z.of_nat (length (rows st)) + Z.of_nat (length (made_rows recs)) in
  let st' := fold_left (row_step batch_size) recs st in
  total_inserted st' = total_inserted st + batch_size * (n / batch_size)
  /\ Z.of_nat (length (rows st')) = n mod batch_size
  /\ Z.of_nat (length (rows st')) < batch_size.
Proof.
  intros Hb. revert st. induction recs as [|rec recs IH]; intros st Ha; cbn zeta.
  - simpl. rewrite Z.add_0_r, Z.div_small, Z.mod_small by lia. lia.
  - simpl. unfold row_step at 2 4 6.
    destruct (make_row rec) as [row|]; [|exact (IH st Ha)].
    destruct (Z.leb_spec batch_size
                (Z.of_nat (length (rows {| db := db st; total_inserted := total_inserted st;
                                           rows := rows st ++ [row] |})))) as [Hfull|Hroom];
      cbn [rows] in *; rewrite length_app in *; simpl length in *.
    + assert (Z.of_nat (length (rows st)) + 1 = batch_size) as Hlen by lia.
      match goal with
      | |- context [fold_left _ recs ?st1] => specialize (IH st1)
      end.
      cbn [rows total_inserted flush write_batch db] in IH.
      specialize (IH ltac:(simpl; lia)). cbn zeta in IH. simpl length in IH.
      destruct IH as (Ht & Hr & Hlt). rewrite Ht, Hr.
      rewrite length_app. simpl length.
      replace (Z.of_nat (length (rows st)) + Z.of_nat (S (length (made_rows recs))))
        with (Z.of_nat 0 + Z.of_nat (length (made_rows recs)) + 1 * batch_size) by lia.
      rewrite Z.div_add, Z.mod_add by lia.
      split; [lia|]. split; [reflexivity|]. apply Z.mod_pos_bound. lia.
    + match goal with
      | |- context [fold_left _ recs ?st1] => specialize (IH st1)
      end.
      cbn [rows total_inserted] in IH. rewrite length_app in IH. simpl length in IH.
      specialize (IH ltac:(lia)). cbn zeta in IH.
      destruct IH as (Ht & Hr & Hlt). rewrite Ht, Hr.
      replace (Z.of_nat (length (rows st) + 1) + Z.of_nat (length (made_rows recs)))
        with (Z.of_nat (length (rows st)) + Z.of_nat (S (length (made_rows recs)))) by lia.
      split; [reflexivity|]. split; [reflexivity|]. apply Z.mod_pos_bound. lia.
Qed.

Lemma row_loop_full_batches_witness :
  let st' := fold_left (row_step 2) (iterrows (norm_cols three_rows))
               {| db := ∅; total_inserted := 0; rows := [] |} in
  total_inserted st' = 0 + 2 * ((0 + 2) / 2)
  /\ Z.of_nat (length (rows st')) = (0 + 2) mod 2
  /\ Z.of_nat (length (rows st')) < 2.
Proof.
  exact (row_loop_full_batches 2 (iterrows (norm_cols three_rows))
           {| db := ∅; total_inserted := 0; rows := [] |} ltac:(lia) ltac:(simpl; lia)).
Defined.

End LoaderMore.

Section StoreMore.
Import PyText CleanLoad.

Lemma last_with_none (batch : list Row) (fid : string) :
  last_with fid batch = None <-> ~ In fid (map flight_id batch).
Proof.
  induction batch as [|r batch IH]; simpl; [tauto|].
  destruct (last_with fid batch) as [r'|].
  - split; [discriminate|]. intros H. exfalso. apply H. right.
    apply Decidable.not_not; [|intros Hn; apply IH in Hn; discriminate].
    destruct (in_dec String.string_dec fid (map flight_id batch)); [left|right]; assumption.
  - destruct (String.eqb_spec (flight_id r) fid) as [E|E].
    + split; [discriminate|]. intros H. exfalso. apply H. now left.
    + split; [|reflexivity]. intros _ [H|H]; [contradiction|].
      now apply IH in H.
Qed.

(** X6: a batch touches the nodes of its own flights and no others, and
    nothing is ever deleted: after the upsert a node exists under a
    [flight_id] exactly when it existed before or the batch has a row with
    that [flight_id]; a node whose [flight_id] is not in the batch is left as it
    was; and the store grows by at most one node per row. *)
Theorem run_upsert_footprint (s : store) (batch : list Row) :
  (forall fid, is_Some (run_upsert s batch !! fid)
               <-> is_Some (s !! fid) \/ In fid (map flight_id batch))
  /\ (forall fid, ~ In fid (map flight_id batch) ->
                  run_upsert s batch !! fid = s !! fid)
  /\ (size s <= size (run_upsert s batch) <= size s + length batch)%nat.
Proof.
  split; [|split].
  - intros fid. rewrite run_upsert_lookup.
    destruct (last_with fid batch) as [r|] eqn:E.
    + split; [intros _; right|intros _; eauto].
      apply Decidable.not_not.
      * destruct (in_dec String.string_dec fid (map flight_id batch)); [left|right]; assumption.
      * intros Hn. apply last_with_none in Hn. congruence.
    + apply last_with_none in E. tauto.
  - intros fid Hn. rewrite run_upsert_lookup.
    apply last_with_none in Hn. now rewrite Hn.
  - revert s. induction batch as [|r batch IH]; intros s; [simpl; lia|].
    rewrite run_upsert_cons. specialize (IH (upsert_row s r)).
    unfold upsert_row in *. simpl length.
    rewrite map_size_insert in IH.
    destruct (s !! flight_id r) as [n|]; simpl in *; lia.
Qed.

(** The properties a row sets, and those it clears. *)
Lemma update_node_props (r : Row) (n : Node) (k : string) :
  props (update_node r n) !! k =
  match row_dict r !! k with
  | Some VNone => None
  | Some v => Some v
  | None => props n !! k
  end.
Proof.
  unfold update_node. simpl. rewrite lookup_merge.
  destruct (props n !! k), (row_dict r !! k) as [[]|]; reflexivity.
Qed.

Lemma last_with_split (pre post : list Row) (r : Row) :
  Forall (fun r' => flight_id r' <> flight_id r) post ->
  last_with (flight_id r) (pre ++ r :: post) = Some r.
Proof.
  intros Hpost.
  assert (last_with (flight_id r) post = None) as Hn.
  { apply last_with_none. rewrite in_map_iff. intros (r' & E & Hin).
    rewrite List.Forall_forall in Hpost. exact (Hpost r' Hin E). }
  induction pre as [|r0 pre IH]; simpl.
  - now rewrite Hn, String.eqb_refl.
  - now rewrite IH.
Qed.

(** X7: the last row of a flight wins. When a batch holds several rows of
    one [flight_id], the node ends with the values of the last of them: every
    entry of that row is the node's property, an entry that is [None] leaves
    the node without that property (also when an earlier row or an earlier
    load had set it), and a property the row has no entry for is kept from the
    node that was there before. *)
Theorem run_upsert_last_wins (s : store) (pre post : list Row) (r : Row) :
  Forall (fun r' => flight_id r' <> flight_id r) post ->
  exists node,
    run_upsert s (pre ++ r :: post) !! flight_id r = Some node
    /\ (forall k v, row_dict r !! k = Some v ->
          props node !! k = if Py.is_none v then None else Some v)
    /\ (forall k, row_dict r !! k = None ->
          props node !! k
          = props (default (new_node (flight_id r)) (s !! flight_id r)) !! k).
Proof.
  intros Hpost. rewrite run_upsert_lookup, (last_with_split pre post r Hpost).
  eexists. split; [reflexivity|]. split.
  - intros k v Hk. rewrite update_node_props, Hk. destruct v; reflexivity.
  - intros k Hk. now rewrite update_node_props, Hk.
Qed.

Lemma run_upsert_last_wins_witness :
  exists node,
    run_upsert ∅ ([delayed_row (Some (S754_finite false 6755399441055744 (-52)))]
                  ++ delayed_row None :: [])
      !! flight_id (delayed_row None) = Some node
    /\ (forall k v, row_dict (delayed_row None) !! k = Some v ->
          props node !! k = if Py.is_none v then None else Some v)
    /\ (forall k, row_dict (delayed_row None) !! k = None ->
          props node !! k
          = props (default (new_node (flight_id (delayed_row None)))
                     ((∅ : store) !! flight_id (delayed_row None))) !! k).
Proof.
  exact (run_upsert_last_wins ∅
           [delayed_row (Some (S754_finite false 6755399441055744 (-52)))] []
           (delayed_row None) (List.Forall_nil _)).
Defined.

End StoreMore.

(** ** What the loader stores *)

Section StoredText.
Import PyText CleanLoad.

Lemma strip_trimmed (s : string) :
  head_space (strip s) = false /\ last_space (strip s) = false.
Proof.
  unfold strip, strip_by. split.
  - apply head_space_rstrip, head_space_lstrip.
  - apply last_space_rstrip.
Qed.

Lemma pick_not_none_usable (rec : dict) (keys : list string) :
  Py.is_none (pick rec keys) = false ->
  is_empty (strip (Py.str (pick rec keys))) = false.
Proof.
  induction keys as [|k keys IH]; simpl; [discriminate|].
  destruct (rec !! k) as [v|]; [|exact IH].
  destruct (usable v) eqn:U; [|exact IH].
  intros _. unfold usable in U. apply andb_prop in U as [_ U].
  now apply negb_true_iff in U.
Qed.

(** X8: every row that the loader makes has an origin and a destination
    that are not empty and carry no white space at either end, whatever the
    cells looked like; the date, carrier and flight number are stored as
    written, and read [None] when the cell is missing. *)
Theorem make_row_trimmed (rec : dict) (row : Row) :
  make_row rec = Some row ->
  is_empty (origin row) = false /\ head_space (origin row) = false
  /\ last_space (origin row) = false
  /\ is_empty (dest row) = false /\ head_space (dest row) = false
  /\ last_space (dest row) = false
  /\ origin row = strip (Py.str (pick rec origin_keys))
  /\ dest row = strip (Py.str (pick rec dest_keys))
  /\ fl_date row = Py.str (pick rec fl_date_keys)
  /\ op_carrier row = Py.str (pick rec op_carrier_keys)
  /\ op_carrier_fl_num row = Py.str (pick rec fl_num_keys)
  /\ (pick rec fl_date_keys = VNone -> fl_date row = "None").
Proof.
  intros H.
  assert (Py.is_none (pick rec origin_keys) = false
          /\ Py.is_none (pick rec dest_keys) = false) as [Ho Hd].
  { unfold make_row in H.
    destruct (Py.is_none (pick rec origin_keys)); [discriminate|].
    destruct (Py.is_none (pick rec dest_keys)); [discriminate|]. now split. }
  pose proof (pick_not_none_usable rec origin_keys Ho) as Eo.
  pose proof (pick_not_none_usable rec dest_keys Hd) as Ed.
  destruct (strip_trimmed (Py.str (pick rec origin_keys))) as [Ho1 Ho2].
  destruct (strip_trimmed (Py.str (pick rec dest_keys))) as [Hd1 Hd2].
  unfold make_row in H. rewrite Ho, Hd in H. cbn [orb] in H.
  revert H Ho Hd Eo Ed Ho1 Ho2 Hd1 Hd2.
  generalize (pick rec fl_date_keys) (pick rec op_carrier_keys) (pick rec fl_num_keys)
    (pick rec origin_keys) (pick rec dest_keys).
  intros a b c o d H. injection H as <-.
  cbn [origin dest fl_date op_carrier op_carrier_fl_num].
  intros. repeat split; try assumption. now intros ->.
Qed.

Lemma make_row_trimmed_witness :
  exists row, make_row (flight_record 100 900) = Some row /\ origin row = "EWR".
Proof.
  eexists. split; [vm_compute; reflexivity|].
  refine (proj1 (proj2 (proj2 (proj2 (proj2 (proj2 (proj2
            (make_row_trimmed (flight_record 100 900) _ _))))))) ).
  vm_compute. reflexivity.
Defined.

End StoredText.

Section RawIds.
Import PyText CleanLoad.

Lemma length_append (s t : string) :
  String.length (s +:+ t) = (String.length s + String.length t)%nat.
Proof.
  induction s as [|c s IH]; [reflexivity|].
  change (String c s +:+ t) with (String c (s +:+ t)). simpl. now rewrite IH.
Qed.

Lemma append_cancel_r (s1 s2 t : string) : s1 +:+ t = s2 +:+ t -> s1 = s2.
Proof.
  revert s2. induction s1 as [|c s1 IH]; intros [|c' s2] H.
  - reflexivity.
  - apply (f_equal String.length) in H. rewrite !length_append in H. simpl in H. lia.
  - apply (f_equal String.length) in H. rewrite !length_append in H. simpl in H. lia.
  - change (String c (s1 +:+ t) = String c' (s2 +:+ t)) in H.
    injection H as -> H. now rewrite (IH _ H).
Qed.

Lemma make_row_strips (rec : dict) (row : Row) :
  make_row rec = Some row ->
  origin row = strip (Py.str (pick rec origin_keys))
  /\ dest row = strip (Py.str (pick rec dest_keys)).
Proof.
  unfold make_row.
  generalize (pick rec fl_date_keys) (pick rec op_carrier_keys) (pick rec fl_num_keys)
    (pick rec origin_keys) (pick rec dest_keys).
  intros a b c o d H. destruct (Py.is_none o || Py.is_none d); [discriminate|].
  injection H as <-. now split.
Qed.

(** X9: the [flight_id] is written from the cells as they are, while the
    stored origin is trimmed. Two records that differ only by white space
    around the origin are therefore stored with the same origin but under
    different [flight_id]s, as two flights. *)
Theorem flight_id_keeps_white_space (rec1 rec2 : dict) (row1 row2 : Row) (o1 o2 : string) :
  make_row rec1 = Some row1 -> make_row rec2 = Some row2 ->
  pick rec1 fl_date_keys = pick rec2 fl_date_keys ->
  pick rec1 op_carrier_keys = pick rec2 op_carrier_keys ->
  pick rec1 fl_num_keys = pick rec2 fl_num_keys ->
  pick rec1 dest_keys = pick rec2 dest_keys ->
  pick rec1 origin_keys = VStr o1 -> pick rec2 origin_keys = VStr o2 ->
  strip o1 = strip o2 -> o1 <> o2 ->
  origin row1 = origin row2 /\ flight_id row1 <> flight_id row2.
Proof.
  intros H1 H2 Ea Eb Ec Ed Eo1 Eo2 Es Hne.
  destruct (make_row_strips _ _ H1) as [O1 _].
  destruct (make_row_strips _ _ H2) as [O2 _].
  split.
  - rewrite O1, O2, Eo1, Eo2. exact Es.
  - rewrite (make_row_flight_id _ _ H1), (make_row_flight_id _ _ H2).
    unfold id_values. rewrite Ea, Eb, Ec, Ed, Eo1, Eo2. cbn [map Py.str].
    intros H. apply Hne.
    do 6 apply (inj (String.app _)) in H.
    exact (append_cancel_r _ _ _ H).
Qed.

Lemma flight_id_keeps_white_space_witness :
  exists row1 row2,
    make_row (<["origin" := VStr " EWR"]> (flight_record 100 900)) = Some row1
    /\ make_row (flight_record 100 900) = Some row2
    /\ origin row1 = origin row2 /\ flight_id row1 <> flight_id row2.
Proof.
  eexists. eexists.
  split; [vm_compute; reflexivity|]. split; [vm_compute; reflexivity|].
  refine (flight_id_keeps_white_space
            (<["origin" := VStr " EWR"]> (flight_record 100 900)) (flight_record 100 900)
            _ _ " EWR" "EWR" _ _ _ _ _ _ _ _ _ _);
    try (vm_compute; reflexivity). discriminate.
Defined.

End RawIds.

(** ** The key builder: call styles and errors *)

Section KeyStyles.
Import PyText CleanLoad.

Lemma or_truthy_l (a b : pyval) : Py.truthy a = true -> Py.or a b = a.
Proof. unfold Py.or. now intros ->. Qed.

Lemma or_falsy_l (a b : pyval) : Py.truthy a = false -> Py.or a b = b.
Proof. unfold Py.or. now intros ->. Qed.

Lemma resolves_three (row : dict) (k1 k2 k3 : string) (v : pyval) :
  resolves row [k1; k2; k3] v ->
  Py.or (Py.or (dict_get row k1) (dict_get row k2)) (dict_get row k3) = v.
Proof.
  intros (pre & k & post & E & Hpre & <- & Hv).
  destruct pre as [|p1 [|p2 [|p3 pre]]]; simpl in E.
  - injection E as -> _.
    now rewrite !(or_truthy_l (dict_get row k)) by exact Hv.
  - injection E as -> -> _.
    rewrite (or_falsy_l (dict_get row p1)) by (apply Hpre; now left).
    now rewrite !(or_truthy_l (dict_get row k)) by exact Hv.
  - injection E as -> -> -> _.
    rewrite (or_falsy_l (dict_get row p1)) by (apply Hpre; now left).
    now rewrite (or_falsy_l (dict_get row p2)) by (apply Hpre; right; now left).
  - exfalso. injection E as _ _ _ E. destruct pre; discriminate.
Qed.

Lemma resolves_two (row : dict) (k1 k2 : string) (v : pyval) :
  resolves row [k1; k2] v ->
  Py.or (dict_get row k1) (dict_get row k2) = v.
Proof.
  intros (pre & k & post & E & Hpre & <- & Hv).
  destruct pre as [|p1 [|p2 pre]]; simpl in E.
  - injection E as -> _. now rewrite or_truthy_l by exact Hv.
  - injection E as -> -> _.
    now rewrite (or_falsy_l (dict_get row p1)) by (apply Hpre; now left).
  - exfalso. injection E as _ _ E. destruct pre; discriminate.
Qed.

(** X10: the two call styles agree. When each of the five fields of a
    mapping has a truthy value under one of its names, taken in the order
    the function tries them (the row's own lower-case name first), the
    mapping call returns what the positional call returns on these five
    values; the other arguments of the mapping call play no part. *)
Theorem build_flight_id_styles_agree (row : dict) (d c o a t x1 x2 x3 x4 : pyval) :
  resolves row ["fl_date"; "FL_DATE"; "date"] d ->
  resolves row ["carrier"; "op_carrier"; "OP_CARRIER"] c ->
  resolves row ["origin"; "ORIGIN"] o ->
  resolves row ["dest"; "DEST"] a ->
  resolves row ["crs_dep_time"; "CRS_DEP_TIME"] t ->
  build_flight_id (KeyRow row) x1 x2 x3 x4 = build_flight_id (KeyVal d) c o a t.
Proof.
  intros Hd Hc Ho Ha Ht. unfold build_flight_id, key_fields.
  now rewrite (resolves_three _ _ _ _ _ Hd), (resolves_three _ _ _ _ _ Hc),
    (resolves_two _ _ _ _ Ho), (resolves_two _ _ _ _ Ha), (resolves_two _ _ _ _ Ht).
Qed.

Lemma resolves_first (row : dict) (k : string) (rest : list string) (v : pyval) :
  dict_get row k = v -> Py.truthy v = true -> resolves row (k :: rest) v.
Proof. intros Hk Hv. exists [], k, rest. repeat split; [intros k' []|exact Hk|exact Hv]. Qed.

Lemma build_flight_id_styles_agree_witness :
  build_flight_id (KeyRow (<["crs_dep_time" := VInt 5]> midnight_row)) VNone VNone VNone VNone
  = build_flight_id (KeyVal (VStr "2020-01-01")) (VStr "AA") (VStr "EWR") (VStr "JFK") (VInt 5).
Proof.
  apply build_flight_id_styles_agree; apply resolves_first; vm_compute; reflexivity.
Defined.

(** X11: what the positional call can do. It raises the missing-field
    error exactly when one of its five arguments is [None]. Otherwise it
    fails exactly when [int(float(time))] fails, with that exception, and
    else returns the key written from the truncated time; a time given as an
    [int] of at most 53 bits never fails. *)
Theorem build_flight_id_positional_outcome (d c o a t : pyval) :
  (build_flight_id (KeyVal d) c o a t = Raise missing_fields
   <-> (d = VNone \/ c = VNone \/ o = VNone \/ a = VNone \/ t = VNone))
  /\ (d <> VNone -> c <> VNone -> o <> VNone -> a <> VNone -> t <> VNone ->
      (forall e, build_flight_id (KeyVal d) c o a t = Raise e
                 <-> Py.int_of_float t = Raise e)
      /\ (forall n, Py.int_of_float t = Ok n ->
            build_flight_id (KeyVal d) c o a t
            = Ok (date_text d +:+ "|" +:+ upper (strip (Py.str c)) +:+ "|"
                  +:+ upper (strip (Py.str o)) +:+ "|" +:+ upper (strip (Py.str a))
                  +:+ "-" +:+ format_0d 4 n))
      /\ (forall n, t = VInt n -> Z.abs n <= 2 ^ 53 ->
            exists key, build_flight_id (KeyVal d) c o a t = Ok key)).
Proof.
  split; [apply build_flight_id_positional_missing|].
  intros Hd Hc Ho Ha Ht.
  assert (forall x, x <> VNone -> Py.is_none x = false) as Hnn
    by (intros [] Hx; try reflexivity; congruence).
  rewrite (build_flight_id_positional d c o a t) by auto.
  split; [|split].
  - intros e. destruct (Py.int_of_float t); simpl; split; congruence.
  - intros n ->. reflexivity.
  - intros n -> Hn. rewrite (int_of_float_exact n Hn). simpl. eauto.
Qed.

Lemma build_flight_id_positional_outcome_witness :
  exists key,
    build_flight_id (KeyVal (VStr "2020-01-01")) (VStr "AA") (VStr "EWR") (VStr "JFK")
      (VInt 12345) = Ok key.
Proof.
  refine (proj2 (proj2 (proj2 (build_flight_id_positional_outcome
            (VStr "2020-01-01") (VStr "AA") (VStr "EWR") (VStr "JFK") (VInt 12345))
            _ _ _ _ _)) 12345 eq_refl _); discriminate.
Defined.

End KeyStyles.

(** ** The coercions, once more *)

Section CoercionsMore.
Import PyText CleanLoad.

Lemma shr_1_nonneg (mrs : shr_record) : 0 <= shr_m mrs -> 0 <= shr_m (shr_1 mrs).
Proof.
  destruct mrs as [m r s0]. simpl. intros H.
  destruct m as [|[p|p|]|[p|p|]]; simpl; lia.
Qed.

Lemma iter_pos_nonneg (p : positive) (mrs : shr_record) :
  0 <= shr_m mrs -> 0 <= shr_m (SpecFloat.iter_pos shr_1 p mrs).
Proof.
  revert mrs. induction p as [p IH|p IH|]; intros mrs H; simpl.
  - apply IH, IH, shr_1_nonneg, H.
  - apply IH, IH, H.
  - apply shr_1_nonneg, H.
Qed.

Lemma shr_fexp_nonneg (m e : Z) (l : location) :
  0 <= m -> 0 <= shr_m (fst (shr_fexp PyFloat.prec PyFloat.emax m e l)).
Proof.
  intros H. unfold shr_fexp, shr.
  assert (0 <= shr_m (shr_record_of_loc m l)) as H0
    by (destruct l as [|[]]; exact H).
  destruct (_ - e) as [|p|p]; simpl; try exact H0.
  now apply iter_pos_nonneg.
Qed.

Lemma round_nearest_even_nonneg (m : Z) (l : location) :
  0 <= m -> 0 <= round_nearest_even m l.
Proof.
  intros H. destruct l as [|[]]; simpl; try lia.
  destruct (Z.even m); lia.
Qed.

(** Rounding a natural number never gives NaN. *)
Lemma binary_round_aux_not_nan (sg : bool) (m e : Z) (l : location) :
  0 <= m -> binary_round_aux PyFloat.prec PyFloat.emax sg m e l <> S754_nan.
Proof.
  intros H. unfold binary_round_aux.
  pose proof (shr_fexp_nonneg m e l H) as H1.
  destruct (shr_fexp _ _ m e l) as [mrs e']. simpl in H1.
  pose proof (shr_fexp_nonneg _ e' loc_Exact
                (round_nearest_even_nonneg _ (loc_of_shr_record mrs) H1)) as H2.
  destruct (shr_fexp _ _ _ e' loc_Exact) as [mrs' e'']. simpl in H2.
  destruct (shr_m mrs') as [|q|q]; [discriminate| |lia].
  destruct (e'' <=? _); discriminate.
Qed.

Lemma of_int_not_nan (n : Z) : PyFloat.of_int n <> Ok S754_nan.
Proof.
  unfold PyFloat.of_int, binary_normalize, binary_round.
  destruct n as [|p|p]; [discriminate| |];
    destruct (shl_align _ _ _) as [mz ez];
    match goal with
    | |- context [binary_round_aux ?a ?b ?sg ?m ?e ?l] =>
        pose proof (binary_round_aux_not_nan sg m e l ltac:(lia)) as Hn;
        destruct (binary_round_aux a b sg m e l); congruence
    end.
Qed.

(** X12: [to_int] is [to_float] followed by truncation. Whenever [to_int]
    returns a number, [to_float] returns the float it was cut from; when
    [to_float] returns [None], so does [to_int]; and [to_int] returns [None]
    on a float that [to_float] returns but that has no integer part: an
    infinity, or a NaN, which [to_float] can only have read from text. *)
Theorem to_int_through_to_float (x : pyval) :
  to_int x = to_float x ≫= (fun f => try_or_none (PyFloat.to_int f))
  /\ (forall n, to_int x = Some n ->
        exists f, to_float x = Some f /\ PyFloat.to_int f = Ok n)
  /\ (to_float x = None -> to_int x = None)
  /\ (forall sg, to_float x = Some (S754_infinity sg) -> to_int x = None)
  /\ (to_float x = Some S754_nan -> to_int x = None /\ exists s, x = VStr s).
Proof.
  assert (to_int x = to_float x ≫= (fun f => try_or_none (PyFloat.to_int f))) as E.
  { unfold to_int, to_float, Py.int_of_float.
    destruct (Py.is_none x || (Py.is_float x && Py.isna x)); [reflexivity|].
    destruct (Py.float x); reflexivity. }
  split; [exact E|]. rewrite E. split; [|split; [|split]].
  - intros n H. destruct (to_float x) as [f|]; [|discriminate].
    exists f. split; [reflexivity|]. simpl in H.
    destruct (PyFloat.to_int f); [|discriminate]. now injection H as ->.
  - now intros ->.
  - now intros sg ->.
  - intros H. rewrite H. split; [reflexivity|].
    unfold to_float in H.
    destruct x as [|b|n|f|s|y m d]; simpl in H; try discriminate; eauto.
    + exfalso. destruct (PyFloat.of_int (if b then 1 else 0)) as [f|] eqn:Ef;
        [|discriminate]. simpl in H. injection H as ->.
      exact (of_int_not_nan _ Ef).
    + exfalso. destruct (PyFloat.of_int n) as [f|] eqn:Ef; [|discriminate].
      simpl in H. injection H as ->. exact (of_int_not_nan _ Ef).
    + exfalso. destruct f; simpl in H; discriminate.
Qed.

Lemma to_int_through_to_float_witness :
  exists f, to_float (VStr "12.7") = Some f /\ PyFloat.to_int f = Ok 12.
Proof.
  refine (proj1 (proj2 (to_int_through_to_float (VStr "12.7"))) 12 _).
  vm_compute. reflexivity.
Defined.

(** X13: [to_int] cuts toward zero and never rounds. For a finite float
    [(-1)^s * m * 2^e] it always returns an integer [n]; [n] has the sign of
    the float, and its size is the whole part of [m * 2^e]. *)
Theorem to_int_truncates (s : bool) (m : positive) (e : Z) :
  exists n,
    to_int (VFloat (S754_finite s m e)) = Some n
    /\ (if s then n <= 0 else 0 <= n)
    /\ (0 <= e -> Z.abs n = Zpos m * 2 ^ e)
    /\ (e < 0 -> Z.abs n * 2 ^ (- e) <= Zpos m < (Z.abs n + 1) * 2 ^ (- e)).
Proof.
  unfold to_int, Py.int_of_float. simpl.
  set (v := if 0 <=? e then Zpos m * 2 ^ e else Zpos m / 2 ^ (- e)).
  assert (0 <= v) as Hv.
  { unfold v. destruct (Z.leb_spec 0 e).
    - apply Z.mul_nonneg_nonneg; [lia|]. apply Z.pow_nonneg. lia.
    - apply Z.div_pos; [lia|]. apply Z.pow_pos_nonneg; lia. }
  exists (if s then - v else v). split; [reflexivity|].
  assert (Z.abs (if s then - v else v) = v) as -> by (destruct s; lia).
  split; [destruct s; lia|]. unfold v. split; intros He.
  - destruct (Z.leb_spec 0 e); [reflexivity|lia].
  - destruct (Z.leb_spec 0 e); [lia|].
    assert (0 < 2 ^ (- e)) as Hp by (apply Z.pow_pos_nonneg; lia).
    pose proof (Z.div_mod (Zpos m) (2 ^ (- e)) ltac:(lia)) as Hdm.
    pose proof (Z.mod_pos_bound (Zpos m) (2 ^ (- e)) Hp) as Hmb.
    nia.
Qed.

End CoercionsMore.

(** ** The CleanFlight model, once more *)

Section ModelMore.
Import PyText Model.

Lemma lstrip_empty_iff (s : string) :
  is_empty (lstrip_by is_space s) = all_space s.
Proof.
  induction s as [|c s IH]; simpl; [reflexivity|].
  destruct (is_space c); [exact IH|reflexivity].
Qed.

Lemma rstrip_keeps_head (s : string) :
  head_space s = false -> is_empty (rstrip_by is_space s) = is_empty s.
Proof. destruct s as [|c s]; simpl; [reflexivity|]. now intros ->. Qed.

(** A text is blank, that is empty once stripped, when it is white space
    throughout. *)
Lemma strip_empty_iff (s : string) : is_empty (strip s) = all_space s.
Proof.
  unfold strip, strip_by.
  rewrite rstrip_keeps_head by apply head_space_lstrip.
  apply lstrip_empty_iff.
Qed.

Lemma normalize_codes_outcome (s : string) :
  normalize_codes (Some s)
  = if all_space s then Raise empty_code else Ok (upper (strip s)).
Proof.
  unfold normalize_codes. rewrite <- strip_empty_iff.
  destruct (strip s); reflexivity.
Qed.

Lemma validate_ok_iff (c c' : CleanFlight) :
  validate c = Ok c'
  <-> (all_space (carrier c) = false /\ all_space (origin c) = false
       /\ all_space (dest c) = false /\ valid_hhmm (crs_dep_time c)
       /\ c' = with_codes c).
Proof.
  unfold validate. rewrite !normalize_codes_outcome.
  destruct (all_space (carrier c)); [split; [discriminate|intros (? & _); discriminate]|].
  destruct (all_space (origin c));
    [split; [discriminate|intros (_ & ? & _); discriminate]|].
  destruct (all_space (dest c));
    [split; [discriminate|intros (_ & _ & ? & _); discriminate]|].
  cbn [rbind].
  destruct (valid_hhmm_dec (crs_dep_time c)) as [Hv|Hn].
  - rewrite (validate_time_ok _ Hv). cbn [rbind Py.as_int]. unfold with_codes. split.
    + intros [= <-]. auto.
    + intros (_ & _ & _ & _ & ->). reflexivity.
  - split; [|tauto].
    destruct (validate_time_raises _ Hn) as [E|E]; rewrite E; discriminate.
Qed.

(** X14: what [CleanFlight] accepts and what it returns. A record passes
    validation exactly when none of its carrier, origin and destination is
    blank and its time is a valid HHMM; the record that comes back has the
    three codes stripped and in upper case and every other field, the flags
    [cancelled] and [diverted] and the [flight_id] included, exactly as given:
    these are not checked at all. A blank code is refused as empty. *)
Theorem validate_outcome (c : CleanFlight) :
  (forall c', validate c = Ok c'
     <-> (all_space (carrier c) = false /\ all_space (origin c) = false
          /\ all_space (dest c) = false /\ valid_hhmm (crs_dep_time c)
          /\ c' = with_codes c))
  /\ (all_space (carrier c) = true \/ all_space (origin c) = true
      \/ all_space (dest c) = true -> validate c = Raise empty_code)
  /\ (all_space (carrier c) = false -> all_space (origin c) = false ->
      all_space (dest c) = false -> ~ valid_hhmm (crs_dep_time c) ->
      validate c = Raise out_of_range \/ validate c = Raise bad_minutes)
  /\ (forall c', validate c = Ok c' ->
        flight_id c' = flight_id c /\ fl_date c' = fl_date c
        /\ crs_dep_time c' = crs_dep_time c
        /\ dep_delay c' = dep_delay c /\ arr_delay c' = arr_delay c
        /\ cancelled c' = cancelled c /\ diverted c' = diverted c
        /\ distance c' = distance c).
Proof.
  split; [intros c'; apply validate_ok_iff|]. split; [|split].
  - intros H. unfold validate. rewrite !normalize_codes_outcome.
    destruct (all_space (carrier c)); [reflexivity|].
    destruct (all_space (origin c)); [reflexivity|].
    destruct (all_space (dest c)); [reflexivity|].
    destruct H as [H|[H|H]]; discriminate.
  - intros H1 H2 H3 Hn. unfold validate.
    rewrite !normalize_codes_outcome, H1, H2, H3. cbn [rbind].
    destruct (validate_time_raises _ Hn) as [E|E]; rewrite E; [left|right]; reflexivity.
  - intros c' H. apply validate_ok_iff in H as (_ & _ & _ & _ & ->).
    repeat split.
Qed.

Lemma validate_outcome_witness :
  validate {| flight_id := "x"; fl_date := (2020, 1, 1); carrier := "  ";
              origin := "EWR"; dest := "JFK"; crs_dep_time := 900;
              dep_delay := None; arr_delay := None; cancelled := 7; diverted := -1;
              distance := None |} = Raise empty_code.
Proof.
  refine (proj1 (proj2 (validate_outcome _)) _). left. reflexivity.
Defined.

Lemma upper_strip_twice (s : string) :
  upper (strip (upper (strip s))) = upper (strip s).
Proof.
  destruct (is_empty (upper (strip s))) eqn:E.
  - destruct (upper (strip s)); [reflexivity|discriminate].
  - apply normal_code_fixed, normal_code_strip_upper, E.
Qed.

(** X15: validation does not change the key of a flight. The key builder
    returns the same for the codes of a record as given and for the codes of
    the record that validation returns. *)
Theorem build_flight_id_after_validate (c c' : CleanFlight) (d t : pyval) :
  validate c = Ok c' ->
  CleanLoad.build_flight_id (CleanLoad.KeyVal d)
    (VStr (carrier c)) (VStr (origin c)) (VStr (dest c)) t
  = CleanLoad.build_flight_id (CleanLoad.KeyVal d)
      (VStr (carrier c')) (VStr (origin c')) (VStr (dest c')) t.
Proof.
  intros H. apply validate_ok_iff in H as (_ & _ & _ & _ & ->).
  unfold CleanLoad.build_flight_id, CleanLoad.key_fields, with_codes.
  cbn [carrier origin dest Py.str Py.is_none].
  now rewrite !upper_strip_twice.
Qed.

Lemma build_flight_id_after_validate_witness :
  CleanLoad.build_flight_id (CleanLoad.KeyVal (VStr "2020-01-01"))
    (VStr " aa") (VStr "ewr ") (VStr "Jfk") (VInt 900)
  = CleanLoad.build_flight_id (CleanLoad.KeyVal (VStr "2020-01-01"))
      (VStr "AA") (VStr "EWR") (VStr "JFK") (VInt 900).
Proof.
  exact (build_flight_id_after_validate
           {| flight_id := "x"; fl_date := (2020, 1, 1); carrier := " aa";
              origin := "ewr "; dest := "Jfk"; crs_dep_time := 900;
              dep_delay := None; arr_delay := None; cancelled := 0; diverted := 0;
              distance := None |}
           {| flight_id := "x"; fl_date := (2020, 1, 1); carrier := "AA";
              origin := "EWR"; dest := "JFK"; crs_dep_time := 900;
              dep_delay := None; arr_delay := None; cancelled := 0; diverted := 0;
              distance := None |}
           (VStr "2020-01-01") (VInt 900) eq_refl).
Defined.

End ModelMore.

(** ** Configuration and connectivity *)

Section Config.
Import PyText Gold.

Lemma all_space_empty (v : string) : is_empty v = true -> all_space v = true.
Proof. destruct v; [reflexivity|discriminate]. Qed.

(** X16: [env] falls back to the default when the variable is not set or
    is blank (empty or white space only) and otherwise returns its value as it
    is, white space around it included. It differs from [os.getenv(name,
    default)], which the loader and the dashboard use, exactly on a variable
    that is set to a blank value other than the default. *)
Theorem env_blank_falls_back (e : environ) (name dflt : string) :
  (e !! name = None -> env e name dflt = dflt)
  /\ (forall v, e !! name = Some v -> all_space v = true -> env e name dflt = dflt)
  /\ (forall v, e !! name = Some v -> all_space v = false -> env e name dflt = v)
  /\ (env e name dflt <> getenv e name dflt
      <-> exists v, e !! name = Some v /\ all_space v = true /\ v <> dflt).
Proof.
  unfold env, getenv.
  assert (forall v, negb (is_empty v) && negb (is_empty (strip v)) = negb (all_space v)) as E.
  { intros v. rewrite strip_empty_iff. destruct (is_empty v) eqn:Ev; [|reflexivity].
    now rewrite (all_space_empty v Ev). }
  split; [now intros ->|]. split; [|split].
  - intros v -> Hv. now rewrite E, Hv.
  - intros v -> Hv. now rewrite E, Hv.
  - destruct (e !! name) as [v|]; simpl.
    + rewrite E. destruct (all_space v) eqn:Hv; simpl.
      * split; [intros H; exists v; repeat split; congruence|].
        intros (v' & [= <-] & _ & Hne). congruence.
      * split; [congruence|]. intros (v' & [= <-] & Hs & _). congruence.
    + split; [congruence|]. intros (v' & Hv' & _). discriminate.
Qed.

Lemma env_blank_falls_back_witness :
  env {[ "NEO4J_URI" := "  " ]} "NEO4J_URI" "bolt://127.0.0.1:7687"
  = "bolt://127.0.0.1:7687".
Proof.
  refine (proj1 (proj2 (env_blank_falls_back _ _ _)) "  " _ _); reflexivity.
Defined.

Lemma wait_loop_connects (verify : verifier) (j n k : nat) (last : option string)
    (slept : nat) :
  (j < n)%nat ->
  (forall i, (i < j)%nat -> verify (k + i)%nat <> None) ->
  verify (k + j)%nat = None ->
  wait_loop verify n k last slept
  = {| outcome := Connected; calls := S (k + j); sleeps := (slept + j)%nat |}.
Proof.
  revert n k last slept. induction j as [|j IH]; intros n k last slept Hn Hbefore Hj.
  - destruct n as [|n]; [lia|]. simpl. rewrite Nat.add_0_r in Hj. rewrite Hj.
    now rewrite !Nat.add_0_r.
  - destruct n as [|n]; [lia|]. simpl.
    destruct (verify k) as [e|] eqn:Ek.
    + rewrite (IH n (S k) (Some e) (S slept)).
      * f_equal; lia.
      * lia.
      * intros i Hi. replace (S k + i)%nat with (k + S i)%nat by lia.
        apply Hbefore. lia.
      * now replace (S k + j)%nat with (k + S j)%nat by lia.
    + exfalso. apply (Hbefore 0%nat); [lia|]. now rewrite Nat.add_0_r.
Qed.

Lemma wait_loop_gives_up (verify : verifier) (n k : nat) (last : option string)
    (slept : nat) :
  (forall i, (i < n)%nat -> verify (k + i)%nat <> None) ->
  let cause := match n with O => last | S n' => verify (k + n')%nat end in
  wait_loop verify n k last slept
  = {| outcome :=
         match cause with
         | None => NotReachable
                     "Neo4j not reachable after retries (no exception captured)." None
         | Some e => NotReachable
                       ("Neo4j not reachable after retries. Last error: " +:+ e) (Some e)
         end;
       calls := (k + n)%nat; sleeps := (slept + n)%nat |}.
Proof.
  revert k last slept. induction n as [|n IH]; intros k last slept Hall; cbn zeta.
  - simpl. rewrite !Nat.add_0_r. destruct last; reflexivity.
  - simpl. destruct (verify k) as [e|] eqn:Ek.
    + rewrite IH.
      * cbn zeta. replace (S k + n)%nat with (k + S n)%nat by lia.
        replace (S slept + n)%nat with (slept + S n)%nat by lia.
        f_equal. destruct n as [|n'].
        -- rewrite Nat.add_0_r, Ek. reflexivity.
        -- replace (S k + n')%nat with (k + S n')%nat by lia. reflexivity.
      * intros i Hi. replace (S k + i)%nat with (k + S i)%nat by lia.
        apply Hall. lia.
    + exfalso. apply (Hall 0%nat); [lia|]. now rewrite Nat.add_0_r.
Qed.

Lemma first_answer (verify : verifier) (n : nat) :
  (forall i, (i < n)%nat -> verify i <> None)
  \/ (exists j, (j < n)%nat /\ verify j = None
                /\ forall i, (i < j)%nat -> verify i <> None).
Proof.
  induction n as [|n [IH|(j & Hj & Hv & Hb)]].
  - left. intros i Hi. lia.
  - destruct (verify n) as [e|] eqn:En.
    + left. intros i Hi. destruct (Nat.eq_dec i n) as [->|]; [congruence|].
      apply IH. lia.
    + right. exists n. repeat split; [lia|exact En|exact IH].
  - right. exists j. repeat split; [lia|exact Hv|exact Hb].
Qed.

(** X17: [wait_for_neo4j] returns as soon as the driver answers. If the
    first answer comes at call number [j] (counted from 0) and [j] is below
    [attempts], it returns after [j + 1] calls and [j] sleeps: one sleep after
    each failure, none after the success. *)
Theorem wait_for_neo4j_connects (verify : verifier) (attempts : Z) (j : nat) :
  Z.of_nat j < attempts ->
  (forall i, (i < j)%nat -> verify i <> None) ->
  verify j = None ->
  wait_for_neo4j verify attempts
  = {| outcome := Connected; calls := S j; sleeps := j |}.
Proof.
  intros Hj Hbefore Hok. unfold wait_for_neo4j.
  exact (wait_loop_connects verify j (Z.to_nat attempts) 0 None 0
           ltac:(lia) Hbefore Hok).
Qed.

Lemma wait_for_neo4j_connects_witness :
  wait_for_neo4j (fun k => if (k <? 2)%nat then Some "down" else None) 15
  = {| outcome := Connected; calls := 3; sleeps := 2 |}.
Proof.
  refine (wait_for_neo4j_connects _ 15 2 _ _ _).
  - lia.
  - intros i Hi. destruct i as [|[|i]]; [discriminate|discriminate|lia].
  - reflexivity.
Defined.

(** X18: [wait_for_neo4j] gives up after [attempts] failures. If every one
    of the first [attempts] calls fails, it makes exactly [attempts] calls,
    sleeps after each of them, the last one included, and raises a
    [RuntimeError] from the last failure, with that failure's text in the
    message; with [attempts] of 0 or less it raises at once, without a call,
    and there is no failure to raise from. It connects exactly when one of the
    first [attempts] calls succeeds. *)
Theorem wait_for_neo4j_gives_up (verify : verifier) (attempts : Z) :
  ((forall i, Z.of_nat i < attempts -> verify i <> None) ->
   calls (wait_for_neo4j verify attempts) = Z.to_nat attempts
   /\ sleeps (wait_for_neo4j verify attempts) = Z.to_nat attempts
   /\ (attempts <= 0 ->
       outcome (wait_for_neo4j verify attempts)
       = NotReachable "Neo4j not reachable after retries (no exception captured)." None)
   /\ (forall e, 0 < attempts -> verify (Z.to_nat (attempts - 1)) = Some e ->
       outcome (wait_for_neo4j verify attempts)
       = NotReachable ("Neo4j not reachable after retries. Last error: " +:+ e) (Some e)))
  /\ (outcome (wait_for_neo4j verify attempts) = Connected
      <-> exists j, Z.of_nat j < attempts /\ verify j = None).
Proof.
  split.
  - intros Hall. unfold wait_for_neo4j.
    rewrite (wait_loop_gives_up verify (Z.to_nat attempts) 0 None 0)
      by (intros i Hi; apply Hall; lia).
    cbn [calls sleeps outcome]. split; [reflexivity|]. split; [reflexivity|]. split.
    + intros Hle. replace (Z.to_nat attempts) with 0%nat by lia. reflexivity.
    + intros e Hpos He.
      destruct (Z.to_nat attempts) as [|n] eqn:En; [lia|].
      replace (Z.to_nat (attempts - 1)) with n in He by lia.
      cbn [Nat.add]. now rewrite He.
  - unfold wait_for_neo4j.
    destruct (first_answer verify (Z.to_nat attempts)) as [Hall|(j & Hj & Hv & Hb)].
    + rewrite (wait_loop_gives_up verify (Z.to_nat attempts) 0 None 0 Hall).
      cbn [outcome]. split.
      * destruct (match Z.to_nat attempts with
                  | O => None | S n' => verify (0 + n')%nat end); discriminate.
      * intros (j & Hj & Hv). exfalso. apply (Hall j); [lia|exact Hv].
    + rewrite (wait_loop_connects verify j (Z.to_nat attempts) 0 None 0 Hj Hb Hv).
      split; [|reflexivity]. intros _. exists j. split; [lia|exact Hv].
Qed.

Lemma wait_for_neo4j_gives_up_witness :
  calls (wait_for_neo4j (fun _ => Some "down") 15) = Z.to_nat 15
  /\ sleeps (wait_for_neo4j (fun _ => Some "down") 15) = Z.to_nat 15
  /\ (15 <= 0 ->
      outcome (wait_for_neo4j (fun _ => Some "down") 15)
      = NotReachable "Neo4j not reachable after retries (no exception captured)." None)
  /\ (forall e, 0 < 15 -> Some "down" = Some e ->
      outcome (wait_for_neo4j (fun _ => Some "down") 15)
      = NotReachable ("Neo4j not reachable after retries. Last error: " +:+ e) (Some e)).
Proof.
  refine (proj1 (wait_for_neo4j_gives_up (fun _ => Some "down") 15) _).
  intros i _. discriminate.
Defined.

End Config.

(** ** Queries with retries *)

Section Queries.
Import Viz.
Context {Frame : Type}.

Lemma query_loop_decides (session : nat -> @attempt Frame) (j n k : nat)
    (last : option string) (slept : nat) :
  (j < n)%nat ->
  (forall i, (i < j)%nat -> is_unavailable (session (k + i)%nat)) ->
  ~ is_unavailable (session (k + j)%nat) ->
  query_loop session n k last slept
  = {| answer := match session (k + j)%nat with
                 | Returned df => Rows df
                 | Failed e => Propagated e
                 | Unavailable e => GaveUp (Some e)
                 end;
       tries := S (k + j); naps := (slept + j)%nat |}.
Proof.
  revert n k last slept. induction j as [|j IH]; intros n k last slept Hn Hbefore Hj.
  - destruct n as [|n]; [lia|]. simpl. rewrite !Nat.add_0_r in *.
    destruct (session k) as [df|e|e]; try reflexivity.
    exfalso. apply Hj. now exists e.
  - destruct n as [|n]; [lia|]. simpl.
    destruct (Hbefore 0%nat ltac:(lia)) as [e He]. rewrite Nat.add_0_r in He. rewrite He.
    rewrite (IH n (S k) (Some e) (S slept)).
    + replace (S k + j)%nat with (k + S j)%nat by lia. f_equal. lia.
    + lia.
    + intros i Hi. replace (S k + i)%nat with (k + S i)%nat by lia. apply Hbefore. lia.
    + now replace (S k + j)%nat with (k + S j)%nat by lia.
Qed.

Lemma query_loop_exhausts (session : nat -> @attempt Frame) (n k : nat)
    (last : option string) (slept : nat) :
  (forall i, (i < n)%nat -> is_unavailable (session (k + i)%nat)) ->
  query_loop session n k last slept
  = {| answer := GaveUp match n with
                        | O => last
                        | S n' => match session (k + n')%nat with
                                  | Unavailable e => Some e
                                  | _ => None
                                  end
                        end;
       tries := (k + n)%nat; naps := (slept + n)%nat |}.
Proof.
  revert k last slept. induction n as [|n IH]; intros k last slept Hall.
  - simpl. now rewrite !Nat.add_0_r.
  - simpl. destruct (Hall 0%nat ltac:(lia)) as [e He].
    rewrite Nat.add_0_r in He. rewrite He. rewrite IH.
    + replace (S k + n)%nat with (k + S n)%nat by lia.
      replace (S slept + n)%nat with (slept + S n)%nat by lia.
      f_equal. f_equal. destruct n as [|n'].
      * now rewrite Nat.add_0_r, He.
      * now replace (S k + n')%nat with (k + S n')%nat by lia.
    + intros i Hi. replace (S k + i)%nat with (k + S i)%nat by lia. apply Hall. lia.
Qed.

(** X19: [run_query] retries on [ServiceUnavailable] only. The first turn
    that does not raise [ServiceUnavailable] decides, if it comes within
    [retries] turns: a result is returned, and any other exception leaves the
    function at once, without a sleep and without another turn. Before it
    there was one sleep per unavailable turn. *)
Theorem run_query_first_decides (session : nat -> @attempt Frame) (retries : Z) (j : nat) :
  Z.of_nat j < retries ->
  (forall i, (i < j)%nat -> is_unavailable (session i)) ->
  (forall df, session j = Returned df ->
     run_query session retries = {| answer := Rows df; tries := S j; naps := j |})
  /\ (forall e, session j = Failed e ->
     run_query session retries = {| answer := Propagated e; tries := S j; naps := j |}).
Proof.
  intros Hj Hbefore. unfold run_query. split.
  - intros df Hs.
    rewrite (query_loop_decides session j (Z.to_nat retries) 0 None 0 ltac:(lia) Hbefore).
    + simpl. now rewrite Hs.
    + simpl. rewrite Hs. intros [e He]. discriminate.
  - intros e Hs.
    rewrite (query_loop_decides session j (Z.to_nat retries) 0 None 0 ltac:(lia) Hbefore).
    + simpl. now rewrite Hs.
    + simpl. rewrite Hs. intros [e' He]. discriminate.
Qed.

(** X20: [run_query] gives up after [retries] unavailable turns: it has
    then made [retries] turns and slept after each, the last one included,
    and raises a [RuntimeError] from the last [ServiceUnavailable]. With
    [retries] of 0 or less it raises at once, from nothing, without asking the
    store. *)
Theorem run_query_gives_up (session : nat -> @attempt Frame) (retries : Z) :
  (forall i, Z.of_nat i < retries -> is_unavailable (session i)) ->
  tries (run_query session retries) = Z.to_nat retries
  /\ naps (run_query session retries) = Z.to_nat retries
  /\ (retries <= 0 -> answer (run_query session retries) = GaveUp None)
  /\ (forall e, 0 < retries -> session (Z.to_nat (retries - 1)) = Unavailable e ->
        answer (run_query session retries) = GaveUp (Some e)).
Proof.
  intros Hall. unfold run_query.
  rewrite (query_loop_exhausts session (Z.to_nat retries) 0 None 0)
    by (intros i Hi; apply Hall; lia).
  cbn [tries naps answer]. split; [reflexivity|]. split; [reflexivity|]. split.
  - intros Hle. replace (Z.to_nat retries) with 0%nat by lia. reflexivity.
  - intros e Hpos He. destruct (Z.to_nat retries) as [|n] eqn:En; [lia|].
    replace (Z.to_nat (retries - 1)) with n in He by lia.
    cbn [Nat.add]. now rewrite He.
Qed.

End Queries.

Section QueryWitness.
Import Viz.

Lemma run_query_first_decides_witness :
  run_query (Frame := unit)
    (fun k => if (k <? 1)%nat then Unavailable "down" else Failed "syntax") 3
  = {| answer := Propagated "syntax"; tries := 2; naps := 1 |}.
Proof.
  refine (proj2 (run_query_first_decides (Frame := unit) _ 3 1 _ _) "syntax" eq_refl).
  - lia.
  - intros i Hi. destruct i as [|i]; [|lia]. now exists "down".
Defined.

Lemma run_query_gives_up_witness :
  tries (run_query (Frame := unit) (fun _ => Unavailable "down") 3) = Z.to_nat 3
  /\ naps (run_query (Frame := unit) (fun _ => Unavailable "down") 3) = Z.to_nat 3
  /\ (3 <= 0 ->
      answer (run_query (Frame := unit) (fun _ => Unavailable "down") 3) = GaveUp None)
  /\ (forall e, 0 < 3 -> Unavailable "down" = Unavailable (Frame := unit) e ->
      answer (run_query (Frame := unit) (fun _ => Unavailable "down") 3) = GaveUp (Some e)).
Proof.
  refine (run_query_gives_up (Frame := unit) (fun _ => Unavailable "down") 3 _).
  intros i _. now exists "down".
Defined.

End QueryWitness.

(** ** Logging *)

Section LoggingFacts.
Import Logging.

Lemma setup_logging_has_stream (reg : loggers) (lvl : Z) (name : string) :
  existsb is_stream (handlers (snd (setup_logging reg lvl name))) = true.
Proof.
  unfold setup_logging. cbn [snd handlers].
  destruct (existsb is_stream (handlers (getLogger reg name))) eqn:E; [exact E|].
  rewrite existsb_app. simpl. apply orb_true_r.
Qed.

Lemma getLogger_after (reg : loggers) (lvl : Z) (name : string) :
  getLogger (fst (setup_logging reg lvl name)) name = snd (setup_logging reg lvl name).
Proof. unfold getLogger, setup_logging. cbn [fst snd]. now rewrite lookup_insert_eq. Qed.

(** A call for a logger that has a stream handler changes the level and
    the propagation flag, and nothing else. *)
Lemma setup_logging_with_stream (reg : loggers) (lvl : Z) (name : string) :
  existsb is_stream (handlers (getLogger reg name)) = true ->
  setup_logging reg lvl name
  = (<[logger_key name :=
         {| logger_name := logger_name (getLogger reg name); level := lvl;
            propagate := false; handlers := handlers (getLogger reg name) |}]> reg,
     {| logger_name := logger_name (getLogger reg name); level := lvl;
        propagate := false; handlers := handlers (getLogger reg name) |}).
Proof. intros H. unfold setup_logging. now rewrite H. Qed.

(** X21: [setup_logging] adds its console handler once. Called a second
    time for the same name it adds nothing: the logger keeps the handlers it
    had after the first call, has a stream handler among them, and carries the
    level of the second call, while loggers of other names are left as they
    were. *)
Theorem setup_logging_once (reg : loggers) (lvl1 lvl2 : Z) (name : string) :
  let first := setup_logging reg lvl1 name in
  let second := setup_logging (fst first) lvl2 name in
  handlers (snd second) = handlers (snd first)
  /\ existsb is_stream (handlers (snd first)) = true
  /\ level (snd second) = lvl2 /\ propagate (snd second) = false
  /\ fst second !! logger_key name = Some (snd second)
  /\ (forall other, other <> logger_key name -> fst second !! other = reg !! other).
Proof.
  cbn zeta.
  pose proof (setup_logging_has_stream reg lvl1 name) as Hs.
  rewrite (setup_logging_with_stream (fst (setup_logging reg lvl1 name)) lvl2 name)
    by (now rewrite getLogger_after).
  rewrite getLogger_after. cbn [fst snd handlers level propagate].
  split; [reflexivity|]. split; [exact Hs|]. split; [reflexivity|]. split; [reflexivity|].
  split; [apply lookup_insert_eq|].
  intros other Hne. rewrite lookup_insert_ne by congruence.
  unfold setup_logging. cbn [fst]. now rewrite lookup_insert_ne by congruence.
Qed.

(** X22: the level of the console handler is that of the call that
    created it. For a logger that had no stream handler, a first call with
    one level and a second call with another leave the logger at the second
    level and its console handler at the first; and a logger that already has
    a stream handler is given no handler at all, so the format of this module
    is not applied to it. *)
Theorem setup_logging_handler_level (reg : loggers) (lvl1 lvl2 : Z) (name : string) :
  (existsb is_stream (handlers (getLogger reg name)) = false ->
   let second := snd (setup_logging (fst (setup_logging reg lvl1 name)) lvl2 name) in
   handlers second = handlers (getLogger reg name) ++ [console_handler lvl1]
   /\ level second = lvl2
   /\ handler_level (console_handler lvl1) = lvl1)
  /\ (existsb is_stream (handlers (getLogger reg name)) = true ->
      handlers (snd (setup_logging reg lvl1 name)) = handlers (getLogger reg name))
  /\ (forall lg, getLogger reg name = lg -> handlers lg = [] ->
      handlers (snd (setup_logging reg lvl1 name)) = [console_handler lvl1]).
Proof.
  split; [|split].
  - intros Hno. cbn zeta.
    rewrite (setup_logging_with_stream (fst (setup_logging reg lvl1 name)) lvl2 name)
      by (rewrite getLogger_after; apply setup_logging_has_stream).
    rewrite getLogger_after. cbn [snd handlers level].
    unfold setup_logging. cbn [snd handlers]. rewrite Hno. repeat split.
  - intros Hyes. unfold setup_logging. cbn [snd handlers]. now rewrite Hyes.
  - intros lg <- Hnil. unfold setup_logging. cbn [snd handlers]. now rewrite Hnil.
Qed.

Lemma setup_logging_handler_level_witness :
  let second := snd (setup_logging (fst (setup_logging ∅ INFO "pipeline")) DEBUG "pipeline") in
  handlers second = handlers (getLogger ∅ "pipeline") ++ [console_handler INFO]
  /\ level second = DEBUG
  /\ handler_level (console_handler INFO) = INFO.
Proof.
  refine (proj1 (setup_logging_handler_level ∅ INFO DEBUG "pipeline") _). reflexivity.
Defined.

End LoggingFacts.

(** ** The key of a flight tells flights apart *)

Section KeyInjective.
Import PyText CleanLoad.

Lemma sep_inj (c : ascii) (a b x y : string) :
  mem_char c a = false -> mem_char c b = false ->
  a +:+ String c x = b +:+ String c y -> a = b /\ x = y.
Proof.
  revert b. induction a as [|c1 a IH]; intros [|c2 b] Ha Hb H;
    rewrite ?append_cons, ?append_nil_l in H; cbn [mem_char] in Ha, Hb.
  - injection H as ->. now split.
  - injection H as <- _. rewrite Ascii.eqb_refl in Hb. discriminate.
  - injection H as -> _. rewrite Ascii.eqb_refl in Ha. discriminate.
  - injection H as -> H. apply orb_false_elim in Ha as [_ Ha], Hb as [_ Hb].
    destruct (IH b Ha Hb H) as [-> ->]. now split.
Qed.

Lemma append_same_length (s1 s2 u1 u2 : string) :
  String.length u1 = String.length u2 ->
  s1 +:+ u1 = s2 +:+ u2 -> s1 = s2 /\ u1 = u2.
Proof.
  intros Hl. revert s2. induction s1 as [|c s1 IH]; intros [|c' s2] H;
    rewrite ?append_cons, ?append_nil_l in H.
  - now split.
  - apply (f_equal String.length) in H. simpl in H. rewrite length_append in H. lia.
  - apply (f_equal String.length) in H. simpl in H. rewrite length_append in H. lia.
  - injection H as -> H. destruct (IH _ H) as [-> ->]. now split.
Qed.

Lemma four_digits_inj (t1 t2 : Z) :
  0 <= t1 <= 9999 -> 0 <= t2 <= 9999 -> four_digits t1 = four_digits t2 -> t1 = t2.
Proof.
  intros H1 H2 E.
  destruct (four_digits_read t1 H1) as [_ <-].
  destruct (four_digits_read t2 H2) as [_ <-]. now rewrite E.
Qed.

(** X23: the key tells flights apart. For two positional calls with times
    between 0 and 9999 whose date, carrier and origin are written without a
    vertical bar, the keys are equal only if the date texts, the three codes
    after stripping and upper-casing, and the times are all equal. *)
Theorem build_flight_id_injective (d1 d2 : pyval) (c1 c2 o1 o2 a1 a2 : string) (t1 t2 : Z) :
  Py.is_none d1 = false -> Py.is_none d2 = false ->
  0 <= t1 <= 9999 -> 0 <= t2 <= 9999 ->
  mem_char "|" (date_text d1) = false -> mem_char "|" (date_text d2) = false ->
  mem_char "|" (upper (strip c1)) = false -> mem_char "|" (upper (strip c2)) = false ->
  mem_char "|" (upper (strip o1)) = false -> mem_char "|" (upper (strip o2)) = false ->
  build_flight_id (KeyVal d1) (VStr c1) (VStr o1) (VStr a1) (VInt t1)
  = build_flight_id (KeyVal d2) (VStr c2) (VStr o2) (VStr a2) (VInt t2) ->
  date_text d1 = date_text d2 /\ upper (strip c1) = upper (strip c2)
  /\ upper (strip o1) = upper (strip o2) /\ upper (strip a1) = upper (strip a2)
  /\ t1 = t2.
Proof.
  intros Hd1 Hd2 Ht1 Ht2 Md1 Md2 Mc1 Mc2 Mo1 Mo2 H.
  rewrite !build_flight_id_positional in H by (assumption || reflexivity).
  rewrite !int_of_float_exact in H by lia. cbn [rbind Py.str] in H.
  rewrite !format_4d in H by lia. injection H as H.
  apply sep_inj in H as [Ed H]; [|assumption|assumption].
  apply sep_inj in H as [Ec H]; [|assumption|assumption].
  apply sep_inj in H as [Eo H]; [|assumption|assumption].
  apply append_same_length in H as [Ea H]; [|reflexivity].
  assert (E : four_digits t1 = four_digits t2).
  { assert (Hs : forall (c : ascii) (x y : string), String c x = String c y -> x = y)
      by (intros c x y Hxy; now injection Hxy).
    apply (Hs "-"%char). exact H. }
  apply four_digits_inj in E; auto.
Qed.

Lemma build_flight_id_injective_witness :
  date_text (VStr "2020-01-01") = date_text (VStr " 2020-01-01")
  /\ upper (strip "aa") = upper (strip "AA ")
  /\ upper (strip "EWR") = upper (strip "ewr") /\ upper (strip "JFK") = upper (strip "JFK")
  /\ 900 = 900.
Proof.
  refine (build_flight_id_injective (VStr "2020-01-01") (VStr " 2020-01-01")
            "aa" "AA " "EWR" "ewr" "JFK" "JFK" 900 900 _ _ _ _ _ _ _ _ _ _ _);
    try reflexivity; lia.
Defined.

End KeyInjective.
